(** * HMLR Data Portal: a shallow embedding of the Streamlit pages

    The development follows the layout of the repository:

    - [Py]        the Python values, exceptions and tables;
    - [Runtime]   the state a run works on: environment, database, caches,
                  session state, the log of outside calls, the screen;
    - [Script]    the monad of a page script, with the Streamlit calls;
    - [Lib]       [src/lib.py]: engine creation, the cached engine, the
                  cached query [load_data];
    - [SingleDataframe] and [Editor]
                  [src/pages/single_dataframe.py], [src/pages/single_editor.py]
                  with the save handler;
    - [MapPage]   [src/pages/dataframe_map.py]: [process_geometry] and the
                  page script with its refresh handler and layer construction.

    The collaborators that are not part of the repository (pandas, geopandas,
    pydeck, SQLAlchemy, the json module) are taken as a [Library] record of
    functions; a small reference instance [RefLib] is used to run the model
    on concrete inputs. *)

From stdpp Require Import base option list strings gmap pretty.
From Stdlib Require Import ZArith Lia.

Set Warnings "-register-all".
Open Scope Z_scope.

(** ** Python values, exceptions, the script monad *)

Module Py.

(** The cell values a table fetched by [pd.read_sql] holds: SQL NULL is
    [None], a missing float is NaN, a json column arrives parsed. *)
Inductive pyval : Type :=
| PNone
| PNaN
| PBool (b : bool)
| PInt (z : Z)
| PStr (s : string)
| PList (l : list pyval)
| PDict (d : list (string * pyval)).

(** [bool(v)], as the [if row['geometry']:] test evaluates it. *)
Definition truthy (v : pyval) : bool :=
  match v with
  | PNone => false
  | PNaN => true
  | PBool b => b
  | PInt z => negb (z =? 0)
  | PStr s => negb (String.eqb s "")
  | PList l => negb (Nat.eqb (length l) 0)
  | PDict d => negb (Nat.eqb (length d) 0)
  end.

(** [isinstance(v, dict)] *)
Definition isinstance_dict (v : pyval) : bool :=
  match v with PDict _ => true | _ => false end.

(** Lookup in a mapping with string keys, first binding wins. *)
Fixpoint assoc {A : Type} (k : string) (d : list (string * A)) : option A :=
  match d with
  | [] => None
  | (k', v) :: d' => if String.eqb k k' then Some v else assoc k d'
  end.

(** [d.get(k, default)] *)
Definition dict_get (d : list (string * pyval)) (k : string) (default : pyval) : pyval :=
  match assoc k d with Some v => v | None => default end.

(** Exceptions. [RerunException] and [StopException] are Streamlit's script
    control exceptions; they derive from [BaseException], so an
    [except Exception] clause lets them through. *)
Inductive exn : Type :=
| KeyError (key : string)
| TypeError (msg : string)
| ValueError (msg : string)
| IndexError (msg : string)
| EnvironmentError (msg : string)
| ConnectionError (msg : string)
| DatabaseError (msg : string)
| LibraryError (msg : string)
| RerunException
| StopException.

Definition is_Exception (e : exn) : bool :=
  match e with RerunException | StopException => false | _ => true end.

Definition is_KeyError (e : exn) : bool :=
  match e with KeyError _ => true | _ => false end.

(** [f"{e}"]: a [KeyError] prints the repr of its key. *)
Definition exn_str (e : exn) : string :=
  match e with
  | KeyError k => "'" +:+ k +:+ "'"
  | TypeError m | ValueError m | IndexError m | EnvironmentError m
  | ConnectionError m | DatabaseError m | LibraryError m => m
  | RerunException | StopException => ""
  end.

Inductive result (A : Type) : Type :=
| Ok (a : A)
| Raise (e : exn).
Arguments Ok {A} a.
Arguments Raise {A} e.

Definition result_bind {A B : Type} (r : result A) (f : A -> result B) : result B :=
  match r with Ok a => f a | Raise e => Raise e end.

(** *** Tables *)

(** One row as [iterrows] yields it: column label to value. *)
Definition Row : Type := list (string * pyval).

Record DataFrame : Type := mkDataFrame {
  columns : list string;
  values : list (list pyval)
}.

Definition iterrows (df : DataFrame) : list Row :=
  map (fun vs => zip (columns df) vs) (values df).

(** [df.empty]: some axis has length zero. *)
Definition df_empty (df : DataFrame) : bool :=
  Nat.eqb (length (columns df)) 0 || Nat.eqb (length (values df)) 0.

Definition has_column (c : string) (df : DataFrame) : bool :=
  existsb (String.eqb c) (columns df).

(** [row[c]] *)
Definition row_get (c : string) (row : Row) : result pyval :=
  match assoc c row with Some v => Ok v | None => Raise (KeyError c) end.

(** [row.drop(c).to_dict()] once [row[c]] is known to exist. *)
Definition row_drop (c : string) (row : Row) : Row :=
  filter (fun kv => negb (String.eqb c (fst kv))) row.

(** [df.iloc[idx]] for a list of positions. *)
Fixpoint take_rows (vs : list (list pyval)) (idx : list nat) : result (list (list pyval)) :=
  match idx with
  | [] => Ok []
  | i :: idx' =>
      match vs !! i with
      | None => Raise (IndexError "positional indexers are out-of-bounds")
      | Some r => result_bind (take_rows vs idx') (fun rs => Ok (r :: rs))
      end
  end.

Definition iloc (df : DataFrame) (idx : list nat) : result DataFrame :=
  result_bind (take_rows (values df) idx) (fun rs => Ok (mkDataFrame (columns df) rs)).

End Py.
Export Py.

(** ** The state a script run works on *)

Module Runtime.

(** What the process does to the outside, in order. *)
Inductive Event : Type :=
| EvUrlCreate (user host : string) (port : Z) (db : string)
| EvCreateEngine
| EvConnect
| EvExecute (sql : string)
| EvBegin
| EvInsert (table : string) (nrows : nat)
| EvCommit
| EvRollback
| EvQuery (sql : string).

Record Engine : Type := mkEngine {
  url_username : string;
  url_password : string;
  url_host : string;
  url_port : Z;
  url_database : string
}.

(** The two tables the pages read and write. *)
Record Database : Type := mkDatabase {
  public_test : list Row;
  public_test_geom : list Row
}.

(** One pydeck [GeoJsonLayer]. *)
Record Layer : Type := mkLayer {
  layer_type : string;
  layer_data : pyval;
  pickable : bool;
  stroked : bool;
  filled : bool;
  get_fill_color : string;
  get_line_color : string;
  line_width_min_pixels : Z
}.

Record Deck (Point : Type) : Type := mkDeck {
  deck_layers : list Layer;
  view_center : Point;
  view_zoom : Z;
  tooltip_html : string
}.
Arguments mkDeck {Point}.
Arguments deck_layers {Point}.
Arguments view_center {Point}.
Arguments view_zoom {Point}.
Arguments tooltip_html {Point}.

(** What a run draws, in order. *)
Inductive Element (Point : Type) : Type :=
| StTitle (s : string)
| StSubheader (s : string)
| StWarning (s : string)
| StError (s : string)
| StSuccess (s : string)
| StDataframe (df : DataFrame)
| StDataEditor (df : DataFrame)
| StButton (label : string)
| StPydeckChart (d : Deck Point).
Arguments StTitle {Point}.
Arguments StSubheader {Point}.
Arguments StWarning {Point}.
Arguments StError {Point}.
Arguments StSuccess {Point}.
Arguments StDataframe {Point}.
Arguments StDataEditor {Point}.
Arguments StButton {Point}.
Arguments StPydeckChart {Point}.

(** How the outside behaves during one run: the clock, and whether the
    database refuses a step (with the driver's message). A failing bulk
    insert has written some of its rows before it fails. *)
Record Outside : Type := mkOutside {
  now : Z;
  connect_fault : option string;
  query_fault : option string;
  delete_fault : option string;
  insert_fault : option (nat * string);
  commit_fault : option string
}.

Record World (Point : Type) : Type := mkWorld {
  environ : gmap string string;
  database : Database;
  transaction : option Database;
  engine_cache : option Engine;
  load_data_cache : gmap string (DataFrame * Z);
  process_geometry_cache : list DataFrame;
  session_state : gmap string (list nat);
  log : list Event;
  screen : list (Element Point)
}.
Arguments mkWorld {Point}.
Arguments environ {Point}.
Arguments database {Point}.
Arguments transaction {Point}.
Arguments engine_cache {Point}.
Arguments load_data_cache {Point}.
Arguments process_geometry_cache {Point}.
Arguments session_state {Point}.
Arguments log {Point}.
Arguments screen {Point}.

End Runtime.
Export Runtime.

(** ** The collaborators *)

(** The calls into pandas, geopandas, json and the int builtin that the
    repository makes; each returns, or fails with a message. [from_features]
    stands for [GeoDataFrame.from_features(features, crs=27700)], [to_crs]
    for [.to_crs(4326)], [set_row_data] for the column assignment
    [gdf['row_data'] = ...], [gdf_geojson] for [json.loads(gdf.to_json())],
    [gdf_centroid] for [gdf.geometry.centroid.union_all().centroid],
    [json_dumps] for [json.dumps(d, indent=2)]. *)
Record Library : Type := mkLibrary {
  GeoDataFrame : Type;
  Point : Type;
  gpd_GeoDataFrame : GeoDataFrame;
  from_features : list pyval -> string + GeoDataFrame;
  to_crs : GeoDataFrame -> string + GeoDataFrame;
  set_row_data : GeoDataFrame -> list string -> string + GeoDataFrame;
  gdf_empty : GeoDataFrame -> bool;
  gdf_geojson : GeoDataFrame -> string + pyval;
  gdf_centroid : GeoDataFrame -> string + Point;
  json_dumps : Row -> string + string;
  py_int : string -> string + Z;
  pd_read_sql : string -> Database -> string + DataFrame
}.

(** A failure inside a collaborator arrives as an exception with that
    message. *)
Definition called {A : Type} (r : string + A) : result A :=
  match r with
  | inl msg => Raise (LibraryError msg)
  | inr a => Ok a
  end.

(** What the pages rely on from geopandas: the frame [gpd.GeoDataFrame()]
    is empty, and so is a frame made from no feature at all, also after
    reprojection. *)
Record LibraryLaws (L : Library) : Prop := mkLibraryLaws {
  empty_frame_empty : gdf_empty L (gpd_GeoDataFrame L) = true;
  no_features_empty : forall g, from_features L [] = inr g -> gdf_empty L g = true;
  to_crs_empty : forall g g', to_crs L g = inr g' -> gdf_empty L g' = gdf_empty L g
}.

(** ** The script monad *)

Module Script.
Section Script.
Context (L : Library).

Abbreviation W := (World (Point L)).

(** A piece of script reads the outside, changes the world, and either
    returns or raises. What was done before a raise stays done. *)
Definition M (A : Type) : Type := Outside -> W -> result A * W.

Definition ret {A : Type} (a : A) : M A := fun _ w => (Ok a, w).

Definition bind {A B : Type} (m : M A) (f : A -> M B) : M B :=
  fun o w =>
    match m o w with
    | (Ok a, w') => f a o w'
    | (Raise e, w') => (Raise e, w')
    end.

Definition raise {A : Type} (e : exn) : M A := fun _ w => (Raise e, w).

Definition lift {A : Type} (r : result A) : M A := fun _ w => (r, w).

Definition gets {A : Type} (f : W -> A) : M A := fun _ w => (Ok (f w), w).

Definition modify (f : W -> W) : M unit := fun _ w => (Ok tt, f w).

Definition outside : M Outside := fun o w => (Ok o, w).

(** [try: body / except <catches> as e: handler e] *)
Definition try_except {A : Type} (catches : exn -> bool) (body : M A) (handler : exn -> M A) : M A :=
  fun o w =>
    match body o w with
    | (Raise e, w') => if catches e then handler e o w' else (Raise e, w')
    | r => r
    end.

(** Field updates of the world. *)
Definition set_database (d : Database) (w : W) : W :=
  mkWorld (environ w) d (transaction w) (engine_cache w) (load_data_cache w)
          (process_geometry_cache w) (session_state w) (log w) (screen w).

Definition set_transaction (t : option Database) (w : W) : W :=
  mkWorld (environ w) (database w) t (engine_cache w) (load_data_cache w)
          (process_geometry_cache w) (session_state w) (log w) (screen w).

Definition set_engine_cache (c : option Engine) (w : W) : W :=
  mkWorld (environ w) (database w) (transaction w) c (load_data_cache w)
          (process_geometry_cache w) (session_state w) (log w) (screen w).

Definition set_load_data_cache (c : gmap string (DataFrame * Z)) (w : W) : W :=
  mkWorld (environ w) (database w) (transaction w) (engine_cache w) c
          (process_geometry_cache w) (session_state w) (log w) (screen w).

Definition set_process_geometry_cache (c : list DataFrame) (w : W) : W :=
  mkWorld (environ w) (database w) (transaction w) (engine_cache w) (load_data_cache w)
          c (session_state w) (log w) (screen w).

Definition set_session_state (s : gmap string (list nat)) (w : W) : W :=
  mkWorld (environ w) (database w) (transaction w) (engine_cache w) (load_data_cache w)
          (process_geometry_cache w) s (log w) (screen w).

Definition set_log (l : list Event) (w : W) : W :=
  mkWorld (environ w) (database w) (transaction w) (engine_cache w) (load_data_cache w)
          (process_geometry_cache w) (session_state w) l (screen w).

Definition set_screen (s : list (Element (Point L))) (w : W) : W :=
  mkWorld (environ w) (database w) (transaction w) (engine_cache w) (load_data_cache w)
          (process_geometry_cache w) (session_state w) (log w) s.

Definition emit (ev : Event) : M unit := modify (fun w => set_log (log w ++ [ev]) w).

Definition draw (el : Element (Point L)) : M unit :=
  modify (fun w => set_screen (screen w ++ [el]) w).

(** Streamlit calls. *)
Definition st_title (s : string) : M unit := draw (StTitle s).
Definition st_subheader (s : string) : M unit := draw (StSubheader s).
Definition st_warning (s : string) : M unit := draw (StWarning s).
Definition st_error (s : string) : M unit := draw (StError s).
Definition st_success (s : string) : M unit := draw (StSuccess s).
Definition st_rerun {A : Type} : M A := raise RerunException.
Definition st_stop {A : Type} : M A := raise StopException.

(** The map charts among the elements drawn. *)
Definition charts (els : list (Element (Point L))) : list (Deck (Point L)) :=
  omap (fun el => match el with StPydeckChart d => Some d | _ => None end) els.

(** How a run of a page script ends. *)
Inductive Outcome : Type :=
| Completed
| Stopped
| RerunRequested
| Crashed (e : exn).

Definition outcome_of (r : result unit) : Outcome :=
  match r with
  | Ok _ => Completed
  | Raise StopException => Stopped
  | Raise RerunException => RerunRequested
  | Raise e => Crashed e
  end.

(** The script runner: a run starts from a blank screen. *)
Definition run_script (page : M unit) (o : Outside) (w : W) : Outcome * W :=
  let '(r, w') := page o (set_screen [] w) in (outcome_of r, w').

End Script.

Arguments ret {L A} a.
Arguments bind {L A B} m f.
Arguments raise {L A} e.
Arguments lift {L A} r.
Arguments gets {L A} f.
Arguments st_rerun {L A}.
Arguments st_stop {L A}.
Arguments try_except {L A} catches body handler.

End Script.
Export Script.

#[export] Instance result_mret : MRet result := @Ok.
#[export] Instance result_mbind : MBind result := fun A B f r => result_bind r f.
#[export] Instance script_mret (L : Library) : MRet (M L) := @ret L.
#[export] Instance script_mbind (L : Library) : MBind (M L) := fun A B f m => bind m f.

(** ** src/lib.py *)

Module Lib.
Section Lib.
Context (L : Library).

(** [os.environ[k]] *)
Definition environ_get (k : string) : M L string :=
  fun _ w =>
    match environ w !! k with
    | Some v => (Ok v, w)
    | None => (Raise (KeyError k), w)
    end.

(** [os.environ.get(k, d)] *)
Definition environ_get_default (k d : string) : M L string :=
  gets (fun w => default d (environ w !! k)).

(** Lines 15-60. The arguments of [URL.create] are evaluated first, so
    [int(port)] may raise before any URL is made. *)
Definition _create_database_engine : M L Engine :=
  cfg ← try_except is_KeyError
          (user ← environ_get "DB_USER";
           password ← environ_get "DB_PASSWORD";
           host ← environ_get "DB_HOST";
           port ← environ_get_default "DB_PORT" "5432";
           db ← environ_get "DB_NAME";
           mret (user, password, host, port, db))
          (fun e => raise (EnvironmentError
                            ("Missing required environment variable: " +:+ exn_str e)));
  let '(user, password, host, port, db) := cfg in
  try_except is_Exception
    (port_n ← lift (called (py_int L port));
     emit L (EvUrlCreate user host port_n db);;
     emit L EvCreateEngine;;
     emit L EvConnect;;
     o ← outside L;
     match connect_fault o with
     | Some m => raise (DatabaseError m)
     | None =>
         emit L (EvExecute "SELECT 1");;
         mret (mkEngine user password host port_n db)
     end)
    (fun e => raise (ConnectionError ("Failed to create database engine: " +:+ exn_str e))).

(** Lines 63-78, [@st.cache_resource]: the engine is made once and kept;
    a call that raises caches nothing. *)
Definition get_database_engine : M L Engine :=
  c ← gets engine_cache;
  match c with
  | Some e => mret e
  | None =>
      e ← _create_database_engine;
      modify L (set_engine_cache L (Some e));;
      mret e
  end.

(** Lines 98-99, the body under the decorator. *)
Definition load_data_body (sql : string) : M L DataFrame :=
  _ ← get_database_engine;
  emit L (EvQuery sql);;
  o ← outside L;
  match query_fault o with
  | Some m => raise (DatabaseError m)
  | None =>
      db ← gets database;
      lift (called (pd_read_sql L sql db))
  end.

Definition ttl : Z := 600.

(** The settings line 27-31 read with [os.environ[...]]. *)
Definition required_settings : list string :=
  ["DB_USER"; "DB_PASSWORD"; "DB_HOST"; "DB_NAME"].

(** A call that is not answered from the cache runs the body and stores
    what it returned under the SQL text, stamped with the clock; a call
    that raises stores nothing. *)
Definition load_data_miss (sql : string) : M L DataFrame :=
  df ← load_data_body sql;
  o ← outside L;
  modify L (fun w => set_load_data_cache L (<[sql := (df, now o)]> (load_data_cache w)) w);;
  mret df.

(** Line 81, [@st.cache_data(ttl=600)]: entries are keyed by the SQL text
    and live while the clock is below creation time plus [ttl]. *)
Definition load_data (sql : string) : M L DataFrame :=
  o ← outside L;
  c ← gets load_data_cache;
  match c !! sql with
  | Some (df, created) => if now o <? created + ttl then mret df else load_data_miss sql
  | None => load_data_miss sql
  end.

(** [load_data.clear()] *)
Definition load_data_clear : M L unit :=
  modify L (set_load_data_cache L ∅).

End Lib.
End Lib.
Export Lib.

(** ** src/pages/single_dataframe.py *)

Module SingleDataframe.
Section SingleDataframe.
Context (L : Library).

Definition page (refresh_clicked : bool) : M L unit :=
  st_title L "Single DataFrame";;
  table ← load_data L "select * from public.test";
  draw L (StDataframe table);;
  draw L (StButton "Refresh data");;
  if refresh_clicked then (load_data_clear L;; st_rerun) else mret tt.

End SingleDataframe.
End SingleDataframe.

(** ** src/pages/single_editor.py *)

Module Editor.
Section Editor.
Context (L : Library).

(** The statements of an open transaction work on its pending state. *)
Definition update_transaction (f : Database -> Database) : M L unit :=
  t ← gets transaction;
  match t with
  | Some db => modify L (set_transaction L (Some (f db)))
  | None => raise (DatabaseError "This connection is closed")
  end.

Definition set_public_test (rows : list Row) (db : Database) : Database :=
  mkDatabase rows (public_test_geom db).

(** [with engine.begin() as conn: body]: the pending state starts as the
    committed one; leaving the block normally commits it, leaving it by an
    exception rolls it back and re-raises. *)
Definition engine_begin (body : M L unit) : M L unit :=
  o ← outside L;
  match connect_fault o with
  | Some m => raise (DatabaseError m)
  | None =>
      emit L EvBegin;;
      db ← gets database;
      modify L (set_transaction L (Some db));;
      try_except (fun _ => true)
        (body;;
         match commit_fault o with
         | Some m => raise (DatabaseError m)
         | None =>
             t ← gets transaction;
             match t with
             | Some pending =>
                 modify L (fun w => set_transaction L None (set_database L pending w));;
                 emit L EvCommit
             | None => raise (DatabaseError "This connection is closed")
             end
         end)
        (fun e =>
           modify L (set_transaction L None);;
           emit L EvRollback;;
           raise e)
  end.

Definition delete_sql : string := "DELETE FROM public.test;".

(** Line 20 *)
Definition conn_execute_delete : M L unit :=
  emit L (EvExecute delete_sql);;
  o ← outside L;
  match delete_fault o with
  | Some m => raise (DatabaseError m)
  | None => update_transaction (set_public_test [])
  end.

(** Line 21, [if_exists="append", index=False]: the rows of the grid are
    added to the table. *)
Definition to_sql (data : DataFrame) : M L unit :=
  emit L (EvInsert "public.test" (length (values data)));;
  o ← outside L;
  match insert_fault o with
  | Some (k, m) =>
      update_transaction
        (fun db => set_public_test (public_test db ++ take k (iterrows data)) db);;
      raise (DatabaseError m)
  | None =>
      update_transaction
        (fun db => set_public_test (public_test db ++ iterrows data) db)
  end.

(** Lines 17-26, the handler of the Save changes button. *)
Definition save_changes (data : DataFrame) : M L unit :=
  try_except is_Exception
    (_ ← get_database_engine L;
     engine_begin (conn_execute_delete;; to_sql data);;
     load_data_clear L;;
     st_success L "Changes saved successfully!";;
     st_rerun)
    (fun e => st_error L ("Error saving changes: " +:+ exn_str e)).

(** The outside makes some step of a save fail: the engine cannot be had,
    or the database refuses the connection, the delete, the insert or the
    commit. *)
Definition save_step_fails (o : Outside) (w : World (Point L)) : Prop :=
  (exists e w', get_database_engine L o w = (Raise e, w')) \/
  connect_fault o <> None \/ delete_fault o <> None \/
  insert_fault o <> None \/ commit_fault o <> None.

(** What one transaction of the save leaves in the log: the delete and the
    insert between one begin and its commit or rollback. *)
Definition committed_save (data : DataFrame) : list Event :=
  [EvBegin; EvExecute delete_sql; EvInsert "public.test" (length (values data)); EvCommit].

Definition rolled_back_saves (data : DataFrame) : list (list Event) :=
  [ [];
    [EvBegin; EvExecute delete_sql; EvRollback];
    [EvBegin; EvExecute delete_sql; EvInsert "public.test" (length (values data)); EvRollback] ].

(** The page. [edit] is what the user did to the grid: [st.data_editor]
    returns the edited copy of the table it was given. *)
Definition page (edit : DataFrame -> DataFrame) (save_clicked : bool) : M L unit :=
  st_title L "Single Editor";;
  table ← load_data L "select * from public.test";
  draw L (StDataEditor table);;
  let data := edit table in
  draw L (StButton "Save changes");;
  if save_clicked then save_changes data else mret tt.

End Editor.
End Editor.

(** ** src/pages/dataframe_map.py *)

Module MapPage.
Section MapPage.
Context (L : Library).

(** [features.extend(v)] iterates [v]; [len(v)] is the number of items. *)
Definition py_iter (v : pyval) : result (list pyval) :=
  match v with
  | PList l => Ok l
  | PStr s => Ok (map (fun c => PStr (String c EmptyString)) (String.list_ascii_of_string s))
  | PDict d => Ok (map (fun kv => PStr (fst kv)) d)
  | _ => Raise (TypeError "object is not iterable")
  end.

(** Lines 28-37, the body of the loop over the rows; the accumulators are
    [features] and [row_data_list]. *)
Definition flatten_row (acc : list pyval * list Row) (row : Row)
  : result (list pyval * list Row) :=
  geometry ← row_get "geometry" row;
  if truthy geometry then
    match geometry with
    | PDict feature_collection =>
        let geom_features := dict_get feature_collection "features" (PList []) in
        items ← py_iter geom_features;
        let row_dict := row_drop "geometry" row in
        Ok (acc.1 ++ items, acc.2 ++ replicate (length items) row_dict)
    | _ => Ok acc
    end
  else Ok acc.

Fixpoint flatten_rows (acc : list pyval * list Row) (rows : list Row)
  : result (list pyval * list Row) :=
  match rows with
  | [] => Ok acc
  | row :: rows' => acc' ← flatten_row acc row; flatten_rows acc' rows'
  end.

(** Lines 24-37 *)
Definition flatten (data : DataFrame) : result (list pyval * list Row) :=
  flatten_rows ([], []) (iterrows data).

(** The list comprehension of line 45. *)
Fixpoint dumps_all (rows : list Row) : result (list string) :=
  match rows with
  | [] => Ok []
  | r :: rows' => s ← called (json_dumps L r); ss ← dumps_all rows'; Ok (s :: ss)
  end.

(** Lines 39-47, what the [try] block does after the loop. *)
Definition build_frame (features : list pyval) (row_data_list : list Row)
  : result (GeoDataFrame L) :=
  gdf ← called (from_features L features);
  gdf ← called (to_crs L gdf);
  match row_data_list with
  | [] => Ok gdf
  | _ :: _ => row_data ← dumps_all row_data_list; called (set_row_data L gdf row_data)
  end.

(** Lines 23-47, the body of the [try]. *)
Definition try_body (data : DataFrame) : result (GeoDataFrame L) :=
  '(features, row_data_list) ← flatten data;
  build_frame features row_data_list.

(** Lines 22-50, the function under the decorator. *)
Definition process_geometry_body (data : DataFrame) : M L (GeoDataFrame L) :=
  try_except is_Exception
    (lift (try_body data))
    (fun e =>
       st_error L ("Error processing geometry: " +:+ exn_str e);;
       mret (gpd_GeoDataFrame L)).

(** Line 19, [@st.cache_data]: a hit replays the frame and the messages a
    fresh call on the same table gives, so the call is modelled by the body
    itself; the cache keeps the tables it has entries for. *)
Definition process_geometry (data : DataFrame) : M L (GeoDataFrame L) :=
  modify L (fun w => set_process_geometry_cache L (data :: process_geometry_cache w) w);;
  process_geometry_body data.

(** [process_geometry.clear()] *)
Definition process_geometry_clear : M L unit :=
  modify L (set_process_geometry_cache L []).

(** The value of [event.selection.get('rows')] when [event.selection] is
    truthy, [None] otherwise. *)
Record Selection : Type := mkSelection { selection_rows : option (list nat) }.

Definition set_selected_rows (rows : list nat) : M L unit :=
  modify L (fun w => set_session_state L (<["selected_rows" := rows]> (session_state w)) w).

(** [st.session_state['selected_rows']] *)
Definition get_selected_rows : M L (list nat) :=
  s ← gets session_state;
  match s !! "selected_rows" with
  | Some rows => mret rows
  | None => raise (KeyError "selected_rows")
  end.

(** Lines 13-14 *)
Definition init_session_state : M L unit :=
  s ← gets session_state;
  match s !! "selected_rows" with
  | Some _ => mret tt
  | None => set_selected_rows []
  end.

(** Lines 71-74 *)
Definition update_selection (event : Selection) : M L unit :=
  match selection_rows event with
  | Some (r :: rows) => set_selected_rows (r :: rows)
  | _ => set_selected_rows []
  end.

(** Lines 77-81, the handler of the Refresh data button. *)
Definition refresh_data : M L unit :=
  load_data_clear L;;
  process_geometry_clear;;
  set_selected_rows [];;
  st_rerun.

Definition color (r g b a : Z) : string :=
  "[" +:+ pretty r +:+ ", " +:+ pretty g +:+ ", " +:+ pretty b +:+ ", " +:+ pretty a +:+ "]".

(** Line 99 *)
Definition base_alpha (selected_rows : list nat) : Z :=
  match selected_rows with [] => 255 | _ :: _ => 100 end.

(** Lines 102-111 *)
Definition base_layer (all_geojson : pyval) (alpha : Z) : Layer :=
  mkLayer "GeoJsonLayer" all_geojson true true true
          (color 200 30 0 alpha) (color 0 0 0 alpha) 1.

(** Lines 122-131 *)
Definition highlight_layer (selected_geojson : pyval) : Layer :=
  mkLayer "GeoJsonLayer" selected_geojson true true true
          "[255, 215, 0, 255]" "[255, 0, 0, 255]" 3.

(** Lines 96-132, the list [layers]. *)
Definition build_layers (table : DataFrame) (gdf : GeoDataFrame L) : M L (list Layer) :=
  selected_rows ← get_selected_rows;
  let alpha := base_alpha selected_rows in
  all_geojson ← lift (called (gdf_geojson L gdf));
  let layers := [base_layer all_geojson alpha] in
  match selected_rows with
  | [] => mret layers
  | _ :: _ =>
      selected_table ← lift (iloc table selected_rows);
      selected_gdf ← process_geometry selected_table;
      if negb (gdf_empty L selected_gdf) then
        selected_geojson ← lift (called (gdf_geojson L selected_gdf));
        mret (layers ++ [highlight_layer selected_geojson])
      else mret layers
  end.

Definition tooltip : string :=
  "<b>Row Data:</b><br/><pre>{row_data}</pre>".

(** Lines 85-146 *)
Definition map_view (table : DataFrame) : M L unit :=
  st_subheader L "Map View";;
  gdf ← process_geometry table;
  if negb (gdf_empty L gdf) then
    centroid ← lift (called (gdf_centroid L gdf));
    layers ← build_layers table gdf;
    draw L (StPydeckChart (mkDeck layers centroid 15 tooltip))
  else st_error L "Could not process geometry data.".

Definition table_sql : string := "select * from public.test_geom limit 1000".

(** Lines 55-146, the script once the table is loaded. [event] is what the
    table grid reports in this run, [refresh_clicked] whether this run was
    caused by the Refresh button. *)
Definition page_with_table (event : Selection) (refresh_clicked : bool) (table : DataFrame)
  : M L unit :=
  (if df_empty table || negb (has_column "geometry" table) then
     st_warning L "No data available or geometry column missing.";; st_stop
   else mret tt);;
  st_subheader L "Data Table";;
  draw L (StDataframe table);;
  update_selection event;;
  draw L (StButton "Refresh data");;
  (if refresh_clicked then refresh_data else mret tt);;
  map_view table.

(** The page script. *)
Definition page (event : Selection) (refresh_clicked : bool) : M L unit :=
  init_session_state;;
  st_title L "DataFrame and Map";;
  table ← load_data L table_sql;
  page_with_table event refresh_clicked table.

(** What the grid reports as a list of row positions. *)
Definition reported_rows (event : Selection) : list nat :=
  match selection_rows event with Some rows => rows | None => [] end.

(** A null cell: SQL NULL or a missing float. *)
Definition is_null (v : pyval) : Prop := v = PNone \/ v = PNaN.

(** Follows the spec (4.4, step 1): the feature list a row declares, empty
    if the collection is absent or null; [None] where the row does not fit
    the spec's table (no geometry column, or a collection whose features
    are not a list). *)
Definition spec_features (row : Row) : option (list pyval) :=
  match assoc "geometry" row with
  | None => None
  | Some (PDict fc) =>
      match assoc "features" fc with
      | None => Some []
      | Some (PList fs) => Some fs
      | Some _ => None
      end
  | Some _ => Some []
  end.

(** Follows the spec (4.4, step 1): each feature of each row, paired with
    that row's non-geometry columns. *)
Fixpoint spec_flatten (rows : list Row) : option (list (pyval * Row)) :=
  match rows with
  | [] => Some []
  | row :: rows' =>
      match spec_features row, spec_flatten rows' with
      | Some fs, Some rest => Some (map (fun f => (f, row_drop "geometry" row)) fs ++ rest)
      | _, _ => None
      end
  end.

End MapPage.
End MapPage.

(** ** A reference instance of the collaborators

    Enough of pandas, geopandas and json to run the pages on concrete
    tables: a frame is the list of its features with their [row_data]
    cell, coordinates are left as they are, and a frame cannot be made
    with a CRS from no feature at all (geopandas refuses to assign a CRS
    to a frame without a geometry column). *)

Module RefLib.

Definition Frame : Type := list (pyval * option string).

Definition read_feature (f : pyval) : string + (pyval * option string) :=
  match f with
  | PDict d =>
      match assoc "geometry" d, assoc "properties" d with
      | Some _, Some _ => inr (f, None)
      | None, _ => inl "'geometry'"
      | _, None => inl "'properties'"
      end
  | _ => inl "string indices must be integers"
  end.

Fixpoint read_features (fs : list pyval) : string + Frame :=
  match fs with
  | [] => inr []
  | f :: fs' =>
      match read_feature f, read_features fs' with
      | inl m, _ => inl m
      | _, inl m => inl m
      | inr r, inr rs => inr (r :: rs)
      end
  end.

Definition from_features (fs : list pyval) : string + Frame :=
  match fs with
  | [] => inl "Assigning CRS to a GeoDataFrame without a geometry column is not supported"
  | _ :: _ => read_features fs
  end.

Definition to_crs (g : Frame) : string + Frame := inr g.

Definition set_row_data (g : Frame) (col : list string) : string + Frame :=
  if Nat.eqb (length g) (length col)
  then inr (zip_with (fun r s => (r.1, Some s)) g col)
  else inl "Length of values does not match length of index".

Definition gdf_empty (g : Frame) : bool := Nat.eqb (length g) 0.

Definition cell (rd : option string) : pyval :=
  match rd with Some s => PStr s | None => PNone end.

Definition gdf_geojson (g : Frame) : string + pyval :=
  inr (PDict [("type", PStr "FeatureCollection");
              ("features", PList (map (fun r => PDict [("feature", r.1); ("row_data", cell r.2)]) g))]).

Definition gdf_centroid (g : Frame) : string + unit := inr tt.

Definition dq : string := String (Ascii.ascii_of_nat 34) EmptyString.

Fixpoint render (v : pyval) : string :=
  match v with
  | PNone => "null"
  | PNaN => "NaN"
  | PBool true => "true"
  | PBool false => "false"
  | PInt z => pretty z
  | PStr s => dq +:+ s +:+ dq
  | PList l =>
      "[" +:+ (fix items (l : list pyval) : string :=
                 match l with
                 | [] => ""
                 | x :: l' =>
                     match l' with
                     | [] => render x
                     | _ :: _ => render x +:+ ", " +:+ items l'
                     end
                 end) l +:+ "]"
  | PDict d =>
      "{" +:+ (fix items (d : list (string * pyval)) : string :=
                 match d with
                 | [] => ""
                 | (k, x) :: d' =>
                     match d' with
                     | [] => dq +:+ k +:+ dq +:+ ": " +:+ render x
                     | _ :: _ => dq +:+ k +:+ dq +:+ ": " +:+ render x +:+ ", " +:+ items d'
                     end
                 end) d +:+ "}"
  end.

Definition json_dumps (row : Row) : string + string := inr (render (PDict row)).

Definition digit (c : Ascii.ascii) : option Z :=
  let n := Z.of_nat (Ascii.nat_of_ascii c) in
  if (48 <=? n) && (n <=? 57) then Some (n - 48) else None.

Fixpoint digits (acc : Z) (s : string) : option Z :=
  match s with
  | EmptyString => Some acc
  | String c s' => match digit c with Some d => digits (10 * acc + d) s' | None => None end
  end.

Definition py_int (s : string) : string + Z :=
  match s with
  | EmptyString => inl "invalid literal for int() with base 10"
  | _ => match digits 0 s with
         | Some z => inr z
         | None => inl "invalid literal for int() with base 10"
         end
  end.

Definition frame_of_rows (rows : list Row) : DataFrame :=
  mkDataFrame (match rows with r :: _ => map fst r | [] => [] end) (map (map snd) rows).

Definition pd_read_sql (sql : string) (db : Database) : string + DataFrame :=
  if String.eqb sql "select * from public.test" then inr (frame_of_rows (public_test db))
  else if String.eqb sql "select * from public.test_geom limit 1000"
       then inr (frame_of_rows (take 1000 (public_test_geom db)))
       else inl "syntax error".

Definition lib : Library :=
  mkLibrary Frame unit [] from_features to_crs set_row_data gdf_empty gdf_geojson
            gdf_centroid json_dumps py_int pd_read_sql.

(** A feature as GeoJSON has it. *)
Definition feature (name : string) : pyval :=
  PDict [("type", PStr "Feature");
         ("geometry", PDict [("type", PStr "Point"); ("coordinates", PList [PInt 530000; PInt 180000])]);
         ("properties", PDict [("name", PStr name)])].

Definition feature_collection (fs : list pyval) : pyval :=
  PDict [("type", PStr "FeatureCollection"); ("features", PList fs)].

(** A table of two parcels: the first with two shapes, the second with no
    geometry. *)
Definition parcels : list Row :=
  [ [("id", PInt 1); ("geometry", feature_collection [feature "a"; feature "b"])];
    [("id", PInt 2); ("geometry", PNone)] ].

Definition people : list Row :=
  [ [("id", PInt 1); ("name", PStr "Ann")];
    [("id", PInt 2); ("name", PStr "Bob")] ].

Definition db0 : Database := mkDatabase people parcels.

Definition env0 : gmap string string :=
  <["DB_USER" := "portal"]> (<["DB_PASSWORD" := "secret"]>
  (<["DB_HOST" := "localhost"]> (<["DB_NAME" := "hmlr"]> ∅))).

Definition engine0 : Engine := mkEngine "portal" "secret" "localhost" 5432 "hmlr".

Definition calm (t : Z) : Outside := mkOutside t None None None None None.

(** The process right after start, and one whose engine is already made. *)
Definition fresh : World unit := mkWorld env0 db0 None None ∅ [] ∅ [] [].
Definition warm : World unit := mkWorld env0 db0 None (Some engine0) ∅ [] ∅ [] [].

(** The process started without DB_HOST. *)
Definition no_host : World unit :=
  mkWorld (delete "DB_HOST" env0) db0 None None ∅ [] ∅ [] [].

(** An outside whose database refuses the bulk insert after one row. *)
Definition insert_breaks : Outside :=
  mkOutside 0 None None None (Some (1%nat, "duplicate key value")) None.

Definition test_sql : string := "select * from public.test".

(** The tables as [pd.read_sql] returns them. *)
Definition people_table : DataFrame := frame_of_rows people.
Definition parcels_table : DataFrame := frame_of_rows parcels.

(** The grid of the editor with its two rows swapped, and with Bob's name
    edited. *)
Definition people_swapped : DataFrame :=
  mkDataFrame ["id"; "name"] [[PInt 2; PStr "Bob"]; [PInt 1; PStr "Ann"]].
Definition people_edited : DataFrame :=
  mkDataFrame ["id"; "name"] [[PInt 1; PStr "Ann"]; [PInt 2; PStr "Rob"]].

(** A table whose second row holds its collection as a JSON string. *)
Definition encoded : pyval := PStr "{type: FeatureCollection}".
Definition parcels_encoded : DataFrame :=
  mkDataFrame ["id"; "geometry"]
    [[PInt 1; feature_collection [feature "a"; feature "b"]]; [PInt 2; encoded]].
Definition parcels_without_encoded : DataFrame :=
  mkDataFrame ["id"; "geometry"]
    [[PInt 1; feature_collection [feature "a"; feature "b"]]].

(** A table in which no row has a geometry. *)
Definition parcels_null : DataFrame :=
  mkDataFrame ["id"; "geometry"] [[PInt 1; PNone]; [PInt 2; PNaN]].

(** What the grid reports: nothing, the first row, the second row. *)
Definition no_rows : MapPage.Selection := MapPage.mkSelection None.
Definition first_row : MapPage.Selection := MapPage.mkSelection (Some [0%nat]).
Definition second_row : MapPage.Selection := MapPage.mkSelection (Some [1%nat]).

(** The frame of the two parcels and of the first parcel alone. *)
Definition two_shapes : Frame :=
  [(feature "a", Some (render (PDict [("id", PInt 1)])));
   (feature "b", Some (render (PDict [("id", PInt 1)])))].

End RefLib.


(** ** Further notions read off the pages *)

Module Coverage.
Section Coverage.
Context (L : Library).

Definition set_environ (e : gmap string string) (w : World (Point L)) : World (Point L) :=
  mkWorld e (database w) (transaction w) (engine_cache w) (load_data_cache w)
          (process_geometry_cache w) (session_state w) (log w) (screen w).

(** The outside calls that only read: building the engine, its test
    round trip, a query. *)
Definition is_read_event (ev : Event) : bool :=
  match ev with
  | EvUrlCreate _ _ _ _ | EvCreateEngine | EvConnect | EvQuery _ => true
  | EvExecute sql => String.eqb sql "SELECT 1"
  | EvBegin | EvInsert _ _ | EvCommit | EvRollback => false
  end.

(** The test of lines 28 and 30 of the map page on a row: its geometry is
    truthy and a dict. *)
Definition holds_collection (row : Row) : bool :=
  match row_get "geometry" row with
  | Ok v => truthy v && isinstance_dict v
  | Raise _ => false
  end.

(** The port text line 30 of lib.py reads. *)
Definition port_text (w : World (Point L)) : string :=
  default "5432" (environ w !! "DB_PORT").

End Coverage.
End Coverage.

(** ** More concrete runs over the reference instance *)

Module RefRuns.

(** The process started with a DB_PORT that is not a number. *)
Definition bad_port : World unit :=
  mkWorld (<["DB_PORT" := "54e2"]> RefLib.env0) RefLib.db0 None None ∅ [] ∅ [] [].

(** An outside whose database refuses connections, and one whose database
    refuses the query. *)
Definition db_down : Outside :=
  mkOutside 0 (Some "connection refused") None None None None.
Definition query_refused : Outside :=
  mkOutside 0 None (Some "relation does not exist") None None None.

(** The table of people as it was cached before Cy was added to the
    database. *)
Definition people_with_cy : list Row :=
  RefLib.people ++ [[("id", PInt 3); ("name", PStr "Cy")]].

Definition cached_before_cy : World unit :=
  mkWorld RefLib.env0 (mkDatabase people_with_cy RefLib.parcels) None (Some RefLib.engine0)
          {[ RefLib.test_sql := (RefLib.people_table, 0) ]} [] ∅ [] [].

(** The query cache serving an empty table to the map page. *)
Definition empty_table : DataFrame := mkDataFrame [] [].
Definition cached_empty : World unit :=
  mkWorld RefLib.env0 RefLib.db0 None (Some RefLib.engine0)
          {[ MapPage.table_sql := (empty_table, 0) ]} [] ∅ [] [].

(** A table without geometry column, and one whose second row holds a
    collection whose features are null. *)
Definition no_geometry_column : DataFrame := mkDataFrame ["id"] [[PInt 1]].
Definition null_features : list (string * pyval) :=
  [("type", PStr "FeatureCollection"); ("features", PNone)].
Definition parcels_spoiled : DataFrame :=
  mkDataFrame ["id"; "geometry"]
    [[PInt 1; RefLib.feature_collection [RefLib.feature "a"; RefLib.feature "b"]];
     [PInt 2; PDict null_features]].

(** The first parcel alone, as [iloc] selects it. *)
Definition first_parcel : DataFrame :=
  mkDataFrame ["id"; "geometry"]
    [[PInt 1; RefLib.feature_collection [RefLib.feature "a"; RefLib.feature "b"]]].

(** The process after the editor page and the map page were both shown:
    the engine is made, the query cache holds the table of either page, the
    processed-geometry cache knows the parcels, and the first row is the
    selection stored by the map page. *)
Definition in_use : World unit :=
  mkWorld RefLib.env0 RefLib.db0 None (Some RefLib.engine0)
          (<[ RefLib.test_sql := (RefLib.people_table, 0) ]>
             {[ MapPage.table_sql := (RefLib.parcels_table, 0) ]})
          [RefLib.parcels_table] {[ "selected_rows" := [0%nat] ]} [] [].

End RefRuns.

(** * Properties *)

(** ** Running scripts *)

Ltac unfold_script :=
  unfold mbind, mret, script_mbind, script_mret, result_mbind, result_mret,
    st_error, st_success, st_warning, st_title, st_subheader, st_rerun, st_stop,
    emit, draw, bind, ret, raise, lift, gets, modify, outside, try_except,
    result_bind in *.

(** Two worlds with the same fields are the same world. *)
Lemma world_ext {P : Type} (w w' : World P) :
  environ w = environ w' -> database w = database w' ->
  transaction w = transaction w' -> engine_cache w = engine_cache w' ->
  load_data_cache w = load_data_cache w' ->
  process_geometry_cache w = process_geometry_cache w' ->
  session_state w = session_state w' -> log w = log w' -> screen w = screen w' ->
  w = w'.
Proof.
  destruct w, w'; simpl; intros; subst; reflexivity.
Qed.

Ltac same_world :=
  apply world_ext; cbn; rewrite <- ?app_assoc; reflexivity.

Section LibFacts.
Context (L : Library).
Implicit Types (o : Outside) (w : World (Point L)).

Lemma get_database_engine_cached o w e :
  engine_cache w = Some e -> get_database_engine L o w = (Ok e, w).
Proof.
  intros H. unfold get_database_engine. unfold_script. now rewrite H.
Qed.

(** C4: when one of DB_USER, DB_PASSWORD, DB_HOST, DB_NAME is not set,
    creating the engine raises [EnvironmentError] with the message
    "Missing required environment variable: '<name>'" for a setting that is
    indeed missing, and leaves the world as it was: the log of outside calls
    gains no URL, no engine and no connection. The same holds for the first
    call of the cached [get_database_engine]. *)
Theorem missing_setting_is_configuration_error o w (k : string) :
  k ∈ required_settings ->
  environ w !! k = None ->
  exists k',
    k' ∈ required_settings /\ environ w !! k' = None /\
    _create_database_engine L o w =
      (Raise (EnvironmentError ("Missing required environment variable: '" +:+ k' +:+ "'")), w) /\
    (engine_cache w = None ->
     get_database_engine L o w =
       (Raise (EnvironmentError ("Missing required environment variable: '" +:+ k' +:+ "'")), w)).
Proof.
  intros Hk Hnone.
  assert (Hcases :
    environ w !! "DB_USER" = None \/ environ w !! "DB_PASSWORD" = None \/
    environ w !! "DB_HOST" = None \/ environ w !! "DB_NAME" = None).
  { unfold required_settings in Hk.
    repeat (apply elem_of_cons in Hk as [-> | Hk]; [tauto |]).
    inversion Hk. }
  destruct (environ w !! "DB_USER") as [user|] eqn:Hu.
  2:{ exists "DB_USER". split; [unfold required_settings; repeat constructor|].
      split; [done|].
      assert (Hc : _create_database_engine L o w =
        (Raise (EnvironmentError "Missing required environment variable: 'DB_USER'"), w)).
      { unfold _create_database_engine, environ_get. unfold_script. now rewrite Hu. }
      split; [exact Hc|]. intros He.
      unfold get_database_engine. unfold_script. rewrite He. fold (_create_database_engine L).
      now rewrite Hc. }
  destruct (environ w !! "DB_PASSWORD") as [password|] eqn:Hp.
  2:{ exists "DB_PASSWORD". split; [unfold required_settings; repeat constructor|].
      split; [done|].
      assert (Hc : _create_database_engine L o w =
        (Raise (EnvironmentError "Missing required environment variable: 'DB_PASSWORD'"), w)).
      { unfold _create_database_engine, environ_get. unfold_script. now rewrite Hu, Hp. }
      split; [exact Hc|]. intros He.
      unfold get_database_engine. unfold_script. rewrite He. fold (_create_database_engine L).
      now rewrite Hc. }
  destruct (environ w !! "DB_HOST") as [host|] eqn:Hh.
  2:{ exists "DB_HOST". split; [unfold required_settings; repeat constructor|].
      split; [done|].
      assert (Hc : _create_database_engine L o w =
        (Raise (EnvironmentError "Missing required environment variable: 'DB_HOST'"), w)).
      { unfold _create_database_engine, environ_get. unfold_script. now rewrite Hu, Hp, Hh. }
      split; [exact Hc|]. intros He.
      unfold get_database_engine. unfold_script. rewrite He. fold (_create_database_engine L).
      now rewrite Hc. }
  destruct (environ w !! "DB_NAME") as [db|] eqn:Hn.
  2:{ exists "DB_NAME". split; [unfold required_settings; repeat constructor|].
      split; [done|].
      assert (Hc : _create_database_engine L o w =
        (Raise (EnvironmentError "Missing required environment variable: 'DB_NAME'"), w)).
      { unfold _create_database_engine, environ_get, environ_get_default.
        unfold_script. now rewrite Hu, Hp, Hh, Hn. }
      split; [exact Hc|]. intros He.
      unfold get_database_engine. unfold_script. rewrite He. fold (_create_database_engine L).
      now rewrite Hc. }
  exfalso. destruct Hcases as [?|[?|[?|?]]]; discriminate.
Qed.


Lemma load_data_hit o w sql df created :
  load_data_cache w !! sql = Some (df, created) ->
  now o < created + ttl ->
  load_data L sql o w = (Ok df, w).
Proof.
  intros Hc Ht. unfold load_data. unfold_script. rewrite Hc.
  apply Z.ltb_lt in Ht. now rewrite Ht.
Qed.

Lemma load_data_absent o w sql :
  load_data_cache w !! sql = None ->
  load_data L sql o w = load_data_miss L sql o w.
Proof.
  intros Hc. unfold load_data. unfold_script. now rewrite Hc.
Qed.

Lemma load_data_expired o w sql df created :
  load_data_cache w !! sql = Some (df, created) ->
  created + ttl <= now o ->
  load_data L sql o w = load_data_miss L sql o w.
Proof.
  intros Hc Ht. unfold load_data. unfold_script. rewrite Hc.
  apply Z.ltb_ge in Ht. now rewrite Ht.
Qed.

(** Creating the engine touches only the log. *)
Lemma create_engine_frame o w r w' :
  _create_database_engine L o w = (r, w') ->
  load_data_cache w' = load_data_cache w /\ database w' = database w /\
  screen w' = screen w /\ session_state w' = session_state w /\
  transaction w' = transaction w /\ engine_cache w' = engine_cache w /\
  process_geometry_cache w' = process_geometry_cache w /\
  (forall e, r = Raise e -> is_Exception e = true).
Proof.
  unfold _create_database_engine, environ_get, environ_get_default. unfold_script.
  intros H.
  repeat match type of H with
  | context [environ w !! ?k] => destruct (environ w !! k)
  | context [py_int L ?p] => destruct (py_int L p); simpl in H
  | context [connect_fault o] => destruct (connect_fault o); simpl in H
  end;
  inversion H; subst; clear H; simpl;
  repeat split; try reflexivity; intros e' He'; inversion He'; reflexivity.
Qed.

Lemma get_database_engine_frame o w r w' :
  get_database_engine L o w = (r, w') ->
  load_data_cache w' = load_data_cache w /\ database w' = database w /\
  screen w' = screen w /\ session_state w' = session_state w /\
  transaction w' = transaction w /\
  process_geometry_cache w' = process_geometry_cache w /\
  (forall e, r = Raise e -> is_Exception e = true) /\
  (forall e, r = Ok e -> engine_cache w' = Some e).
Proof.
  unfold get_database_engine. unfold_script.
  destruct (engine_cache w) as [e|] eqn:He.
  - intros H; inversion H; subst. repeat split; try done.
    intros e' He'; inversion He'; subst; done.
  - fold (_create_database_engine L).
    destruct (_create_database_engine L o w) as [[e|x] w1] eqn:Hc;
      apply create_engine_frame in Hc as (? & ? & ? & ? & ? & ? & ? & Hx);
      intros Hrun; inversion Hrun; subst; simpl; repeat split; try done;
      intros e' He'; first [now apply Hx | now inversion He'].
Qed.

Lemma load_data_body_engine_cached o w sql e :
  engine_cache w = Some e ->
  load_data_body L sql o w =
    (match query_fault o with
     | Some m => Raise (DatabaseError m)
     | None => called (pd_read_sql L sql (database w))
     end, set_log L (log w ++ [EvQuery sql]) w).
Proof.
  intros He. unfold load_data_body. unfold_script.
  rewrite (get_database_engine_cached o w e He). simpl.
  destruct (query_fault o); reflexivity.
Qed.

Lemma load_data_body_frame o w sql r w' :
  load_data_body L sql o w = (r, w') ->
  load_data_cache w' = load_data_cache w /\ database w' = database w /\
  screen w' = screen w /\ session_state w' = session_state w /\
  transaction w' = transaction w /\
  process_geometry_cache w' = process_geometry_cache w /\
  (forall e, r = Raise e -> is_Exception e = true) /\
  (forall df, r = Ok df -> is_Some (engine_cache w')).
Proof.
  unfold load_data_body. unfold_script.
  destruct (get_database_engine L o w) as [[e|x] w1] eqn:Hg;
    apply get_database_engine_frame in Hg as (? & ? & ? & ? & ? & ? & Hx & He).
  - specialize (He e eq_refl).
    destruct (query_fault o); simpl; [|destruct (pd_read_sql L sql _); simpl];
      intros Hrun; inversion Hrun; subst; simpl; repeat split; try done;
      intros y Hy; inversion Hy; subst; eauto.
  - intros Hrun; inversion Hrun; subst; repeat split; try done;
      intros y Hy; inversion Hy; subst; eauto.
Qed.

Lemma load_data_miss_ok o w sql df w' :
  load_data_miss L sql o w = (Ok df, w') ->
  load_data_cache w' = <[sql := (df, now o)]> (load_data_cache w) /\
  is_Some (engine_cache w').
Proof.
  unfold load_data_miss. unfold_script.
  destruct (load_data_body L sql o w) as [[df'|x] w1] eqn:Hb; [|discriminate].
  apply load_data_body_frame in Hb as (Hc & _ & _ & _ & _ & _ & _ & He).
  intros Hrun; inversion Hrun; subst; simpl. rewrite Hc. split; [done|]. eauto.
Qed.

(** C5: once [load_data] has returned a table for an SQL text, the cache
    holds that table under the text with a creation time [created]: the
    clock of this call if the query was executed now, an earlier one if the
    call was itself answered from the cache. Every later call for the same
    text while the clock is below [created + 600] returns that table and
    changes nothing, so no query is executed. After [load_data.clear()] the
    next call for the text is not answered from the cache: it runs the body
    again, which with the engine at hand sends the query to the database
    exactly once. *)
Theorem load_data_memoised o1 w sql df w1 :
  load_data L sql o1 w = (Ok df, w1) ->
  exists created,
    load_data_cache w1 !! sql = Some (df, created) /\
    (created = now o1 \/ (w1 = w /\ now o1 < created + 600)) /\
    (forall o2, now o2 < created + 600 -> load_data L sql o2 w1 = (Ok df, w1)) /\
    (forall o3,
       let cleared := (load_data_clear L o3 w1).2 in
       load_data_cache cleared = ∅ /\
       load_data L sql o3 cleared = load_data_miss L sql o3 cleared /\
       (is_Some (engine_cache w1) ->
        log (load_data L sql o3 cleared).2 = log w1 ++ [EvQuery sql])).
Proof.
  intros Hrun.
  assert (Hclear : forall o3,
     let cleared := (load_data_clear L o3 w1).2 in
     load_data_cache cleared = ∅ /\
     load_data L sql o3 cleared = load_data_miss L sql o3 cleared /\
     (is_Some (engine_cache w1) ->
      log (load_data L sql o3 cleared).2 = log w1 ++ [EvQuery sql])).
  { intros o3. simpl. split; [reflexivity|].
    assert (Hm : load_data L sql o3 (set_load_data_cache L ∅ w1)
                 = load_data_miss L sql o3 (set_load_data_cache L ∅ w1)).
    { apply load_data_absent. simpl. apply lookup_empty. }
    split; [exact Hm|]. intros [e He]. rewrite Hm.
    unfold load_data_miss. unfold_script.
    rewrite (load_data_body_engine_cached o3 (set_load_data_cache L ∅ w1) sql e) by exact He.
    destruct (query_fault o3); simpl; [reflexivity|].
    destruct (pd_read_sql L sql (database w1)); reflexivity. }
  assert (Hmiss : load_data_miss L sql o1 w = (Ok df, w1) ->
    exists created,
      load_data_cache w1 !! sql = Some (df, created) /\
      (created = now o1 \/ (w1 = w /\ now o1 < created + 600))).
  { intros Hm. apply load_data_miss_ok in Hm as [Hc _].
    exists (now o1). rewrite Hc, lookup_insert_eq. auto. }
  assert (Hcore : exists created,
      load_data_cache w1 !! sql = Some (df, created) /\
      (created = now o1 \/ (w1 = w /\ now o1 < created + 600))).
  { destruct (load_data_cache w !! sql) as [[df0 c0]|] eqn:Hc.
    - destruct (Z.ltb_spec (now o1) (c0 + ttl)) as [Hlt|Hge].
      + rewrite (load_data_hit o1 w sql df0 c0 Hc Hlt) in Hrun.
        inversion Hrun; subst. exists c0. unfold ttl in Hlt. auto.
      + rewrite (load_data_expired o1 w sql df0 c0 Hc Hge) in Hrun. auto.
    - rewrite (load_data_absent o1 w sql Hc) in Hrun. auto. }
  destruct Hcore as (created & Hc & Hwhen).
  exists created. split; [exact Hc|]. split; [exact Hwhen|]. split; [|exact Hclear].
  intros o2 Ho2. apply (load_data_hit o2 w1 sql df created Hc). unfold ttl. lia.
Qed.

End LibFacts.

Section EditorFacts.
Context (L : Library).
Implicit Types (o : Outside) (w : World (Point L)).

Ltac unfold_editor :=
  unfold Editor.save_changes, Editor.engine_begin, Editor.conn_execute_delete,
    Editor.to_sql, Editor.update_transaction, load_data_clear in *.

(** What a save does, case by case on what the outside lets through. *)
Lemma save_changes_engine_fails data o w x w1 :
  get_database_engine L o w = (Raise x, w1) ->
  Editor.save_changes L data o w =
    (Ok tt, set_screen L (screen w ++ [StError ("Error saving changes: " +:+ exn_str x)]) w1).
Proof.
  intros Hg. pose proof (get_database_engine_frame L o w _ _ Hg) as (_ & _ & Hs & _ & _ & _ & Hx & _).
  unfold_editor. unfold_script. rewrite Hg. rewrite (Hx x eq_refl). simpl. now rewrite Hs.
Qed.

Lemma save_changes_engine_ok data o w e w1 :
  get_database_engine L o w = (Ok e, w1) ->
  Editor.save_changes L data o w =
    let failed (m : string) (tx : list Event) :=
      (Ok tt, set_screen L (screen w1 ++ [StError ("Error saving changes: " +:+ m)])
                (set_log L (log w1 ++ tx) (set_transaction L None w1))) in
    match connect_fault o with
    | Some m => (Ok tt, set_screen L (screen w1 ++ [StError ("Error saving changes: " +:+ m)]) w1)
    | None =>
      match delete_fault o with
      | Some m => failed m [EvBegin; EvExecute Editor.delete_sql; EvRollback]
      | None =>
        match insert_fault o with
        | Some (_, m) =>
            failed m [EvBegin; EvExecute Editor.delete_sql;
                      EvInsert "public.test" (length (values data)); EvRollback]
        | None =>
          match commit_fault o with
          | Some m =>
              failed m [EvBegin; EvExecute Editor.delete_sql;
                        EvInsert "public.test" (length (values data)); EvRollback]
          | None =>
              (Raise RerunException,
               set_screen L (screen w1 ++ [StSuccess "Changes saved successfully!"])
                 (set_load_data_cache L ∅
                   (set_log L (log w1 ++ Editor.committed_save data)
                     (set_transaction L None
                       (set_database L (Editor.set_public_test (iterrows data) (database w1)) w1)))))
          end
        end
      end
    end.
Proof.
  intros Hg. unfold_editor. unfold Editor.committed_save. unfold_script.
  rewrite Hg. cbv beta iota.
  destruct (connect_fault o) as [m|]; [reflexivity|].
  destruct (delete_fault o) as [m|];
    [|destruct (insert_fault o) as [[k m]|];
      [|destruct (commit_fault o) as [m|]]];
    cbn; f_equal; same_world.
Qed.

Lemma not_fails_calm o w :
  ~ Editor.save_step_fails L o w ->
  (exists e w1, get_database_engine L o w = (Ok e, w1)) /\
  connect_fault o = None /\ delete_fault o = None /\
  insert_fault o = None /\ commit_fault o = None.
Proof.
  intros Hn. unfold Editor.save_step_fails in Hn.
  destruct (get_database_engine L o w) as [[e|x] w1] eqn:Hg.
  - split; [eauto|].
    destruct (connect_fault o), (delete_fault o), (insert_fault o), (commit_fault o);
      try (exfalso; apply Hn; intuition congruence). done.
  - exfalso. apply Hn. left. eauto.
Qed.

Lemma save_step_fails_dec o w :
  Editor.save_step_fails L o w \/ ~ Editor.save_step_fails L o w.
Proof.
  unfold Editor.save_step_fails.
  destruct (get_database_engine L o w) as [[e|x] w1]; [|left; left; eauto].
  destruct (connect_fault o); [left; right; left; done|].
  destruct (delete_fault o); [left; right; right; left; done|].
  destruct (insert_fault o); [left; right; right; right; left; done|].
  destruct (commit_fault o); [left; right; right; right; right; done|].
  right. intros [(x & w' & Hx)|[?|[?|[?|?]]]]; congruence.
Qed.

(** The committed table after a save. *)
Lemma save_changes_database data o w :
  (Editor.save_step_fails L o w ->
   database (Editor.save_changes L data o w).2 = database w) /\
  (~ Editor.save_step_fails L o w ->
   database (Editor.save_changes L data o w).2
     = Editor.set_public_test (iterrows data) (database w)).
Proof.
  destruct (get_database_engine L o w) as [[e|x] w1] eqn:Hg;
    pose proof (get_database_engine_frame L o w _ _ Hg) as (_ & Hdb & _).
  - rewrite (save_changes_engine_ok data o w e w1 Hg).
    unfold Editor.save_step_fails. rewrite Hg.
    destruct (connect_fault o) eqn:?; [cbn; split; [done|intros Hn; exfalso; apply Hn; auto]|].
    destruct (delete_fault o) eqn:?; [cbn; split; [done|intros Hn; exfalso; apply Hn; auto]|].
    destruct (insert_fault o) as [[k m]|] eqn:?;
      [cbn; split; [done|intros Hn; exfalso; apply Hn; auto 6]|].
    destruct (commit_fault o) eqn:?; [cbn; split; [done|intros Hn; exfalso; apply Hn; auto 6]|].
    cbn. split; [|now rewrite Hdb].
    intros [(x & w' & Hx)|[?|[?|[?|?]]]]; congruence.
  - rewrite (save_changes_engine_fails data o w x w1 Hg). cbn.
    split; [done|]. intros Hn. exfalso. apply Hn. left. eauto.
Qed.

(** C1: a save runs its delete and its insert between one begin and the
    matching commit or rollback, and nothing else of the save reaches the
    database. When a step fails (the engine cannot be had, or the database
    refuses the connection, the delete, the insert or the commit) the log
    shows no commit, the committed database is the one from before the save,
    the handler returns normally, and the page shows one more element, the
    error message "Error saving changes: ...". When no step fails the
    transaction is committed with the rows of the grid and a rerun is
    requested. *)
Theorem save_is_all_or_nothing data o w :
  let run := Editor.save_changes L data o w in
  let w1 := (get_database_engine L o w).2 in
  (exists tx, log run.2 = log w1 ++ tx /\
     (tx = Editor.committed_save data \/ tx ∈ Editor.rolled_back_saves data) /\
     (tx <> [] -> transaction run.2 = None)) /\
  (Editor.save_step_fails L o w ->
     run.1 = Ok tt /\
     database run.2 = database w /\
     (exists tx, log run.2 = log w1 ++ tx /\ tx ∈ Editor.rolled_back_saves data) /\
     exists msg, screen run.2 = screen w ++ [StError ("Error saving changes: " +:+ msg)]) /\
  (~ Editor.save_step_fails L o w ->
     run.1 = Raise RerunException /\
     log run.2 = log w1 ++ Editor.committed_save data /\
     database run.2 = Editor.set_public_test (iterrows data) (database w)).
Proof.
  intros run w1. subst run w1.
  assert (Hnil : [] ∈ Editor.rolled_back_saves data) by (repeat constructor).
  destruct (get_database_engine L o w) as [[e|x] w1] eqn:Hg.
  - pose proof (get_database_engine_frame L o w _ _ Hg) as (_ & Hdb & Hs & _ & Htx & _ & _ & _).
    rewrite (save_changes_engine_ok data o w e w1 Hg).
    unfold Editor.rolled_back_saves, Editor.committed_save in *.
    destruct (connect_fault o) as [m|] eqn:Hc; cbn.
    { split; [exists []; rewrite app_nil_r; split; [done|split; [right; exact Hnil|done]]|].
      split.
      - intros _. rewrite Hdb, Hs. split; [done|]. split; [done|].
        split; [exists []; rewrite app_nil_r; split; [done|exact Hnil]|eauto].
      - intros Hn. exfalso. apply Hn. right; left. congruence. }
    destruct (delete_fault o) as [m|] eqn:Hd; cbn.
    { split; [eexists; split; [reflexivity|split; [right; repeat constructor|done]]|].
      split.
      - intros _. rewrite Hdb, Hs. split; [done|]. split; [done|].
        split; [eexists; split; [reflexivity|repeat constructor]|eauto].
      - intros Hn. exfalso. apply Hn. right; right; left. congruence. }
    destruct (insert_fault o) as [[k m]|] eqn:Hi; cbn.
    { split; [eexists; split; [reflexivity|split; [right; repeat constructor|done]]|].
      split.
      - intros _. rewrite Hdb, Hs. split; [done|]. split; [done|].
        split; [eexists; split; [reflexivity|repeat constructor]|eauto].
      - intros Hn. exfalso. apply Hn. right; right; right; left. congruence. }
    destruct (commit_fault o) as [m|] eqn:Hm; cbn.
    { split; [eexists; split; [reflexivity|split; [right; repeat constructor|done]]|].
      split.
      - intros _. rewrite Hdb, Hs. split; [done|]. split; [done|].
        split; [eexists; split; [reflexivity|repeat constructor]|eauto].
      - intros Hn. exfalso. apply Hn. right; right; right; right. congruence. }
    split; [eexists; split; [reflexivity|split; [left; reflexivity|done]]|].
    split.
    + intros [(x & w' & Hx)|[?|[?|[?|?]]]]; congruence.
    + intros _. rewrite Hdb. done.
  - pose proof (get_database_engine_frame L o w _ _ Hg) as (_ & Hdb & Hs & _ & Htx & _ & _ & _).
    rewrite (save_changes_engine_fails data o w x w1 Hg). cbn.
    split; [exists []; rewrite app_nil_r; split; [done|split; [right; exact Hnil|done]]|].
    split.
    + intros _. rewrite Hdb. split; [done|]. split; [done|].
      split; [exists []; rewrite app_nil_r; split; [done|exact Hnil]|eauto].
    + intros Hn. exfalso. apply Hn. left. eauto.
Qed.

(** C6: when the rows of the grid are, as a multiset, the rows the table
    holds, the table holds the same multiset of rows after the save,
    whatever the outside does to the save: a save that fails leaves the
    rows as they were, a save that goes through leaves the rows of the
    grid, in the order of the grid. *)
Theorem save_round_trip data o w :
  iterrows data ≡ₚ public_test (database w) ->
  public_test (database (Editor.save_changes L data o w).2) ≡ₚ public_test (database w) /\
  (Editor.save_step_fails L o w ->
   public_test (database (Editor.save_changes L data o w).2) = public_test (database w)) /\
  (~ Editor.save_step_fails L o w ->
   public_test (database (Editor.save_changes L data o w).2) = iterrows data).
Proof.
  intros Hperm.
  destruct (save_changes_database data o w) as [Hfail Hok].
  destruct (save_step_fails_dec o w) as [Hf|Hn].
  - rewrite (Hfail Hf). split; [done|]. split; [done|]. intros Hn; contradiction.
  - rewrite (Hok Hn). cbn. split; [done|]. split; [intros Hf; contradiction|done].
Qed.

(** C10: a save that goes through leaves the query cache empty, whatever
    SQL texts it held, and then requests the rerun; the next [load_data] of
    any SQL text is therefore not answered from the cache and sends its
    query to the database. A save that fails leaves the query cache as it
    was, so every entry still within its 600 seconds keeps being served. *)
Theorem save_clears_query_cache data o w :
  let run := Editor.save_changes L data o w in
  (~ Editor.save_step_fails L o w ->
     run.1 = Raise RerunException /\
     load_data_cache run.2 = ∅ /\
     forall sql o2,
       load_data L sql o2 run.2 = load_data_miss L sql o2 run.2 /\
       log (load_data L sql o2 run.2).2 = log run.2 ++ [EvQuery sql]) /\
  (Editor.save_step_fails L o w ->
     run.1 = Ok tt /\
     load_data_cache run.2 = load_data_cache w /\
     forall sql df created o2,
       load_data_cache w !! sql = Some (df, created) ->
       now o2 < created + 600 ->
       load_data L sql o2 run.2 = (Ok df, run.2)).
Proof.
  intros run. subst run. split.
  - intros Hn. destruct (not_fails_calm o w Hn) as ((e & w1 & Hg) & Hc & Hd & Hi & Hm).
    pose proof (get_database_engine_frame L o w _ _ Hg) as (_ & _ & _ & _ & _ & _ & _ & He).
    specialize (He e eq_refl).
    rewrite (save_changes_engine_ok data o w e w1 Hg), Hc, Hd, Hi, Hm. cbn.
    split; [done|]. split; [done|]. intros sql o2.
    match goal with |- load_data L sql o2 ?w' = _ /\ _ =>
      assert (Hmiss : load_data L sql o2 w' = load_data_miss L sql o2 w')
        by (apply load_data_absent; cbn; apply lookup_empty);
      split; [exact Hmiss|]; rewrite Hmiss;
      unfold load_data_miss; unfold_script;
      rewrite (load_data_body_engine_cached L o2 w' sql e) by exact He
    end.
    destruct (query_fault o2); cbn; [reflexivity|].
    destruct (pd_read_sql L sql _); reflexivity.
  - intros Hf.
    assert (Hcache : (Editor.save_changes L data o w).1 = Ok tt /\
                     load_data_cache (Editor.save_changes L data o w).2 = load_data_cache w).
    { destruct (get_database_engine L o w) as [[e|x] w1] eqn:Hg;
        pose proof (get_database_engine_frame L o w _ _ Hg) as (Hc & _).
      - rewrite (save_changes_engine_ok data o w e w1 Hg).
        destruct (connect_fault o) eqn:?; [cbn; done|].
        destruct (delete_fault o) eqn:?; [cbn; done|].
        destruct (insert_fault o) as [[k m]|] eqn:?; [cbn; done|].
        destruct (commit_fault o) eqn:?; [cbn; done|].
        exfalso. destruct Hf as [(x & w' & Hx)|[?|[?|[?|?]]]]; congruence.
      - rewrite (save_changes_engine_fails data o w x w1 Hg). cbn. done. }
    destruct Hcache as [Hr Hcache]. split; [exact Hr|]. split; [exact Hcache|].
    intros sql df created o2 Hlook Hlt.
    apply (load_data_hit L o2 _ sql df created); [now rewrite Hcache|unfold ttl; lia].
Qed.

End EditorFacts.

(** ** The geometry pipeline *)

Section FlattenFacts.
Import MapPage.

Lemma flatten_rows_app acc rows1 rows2 :
  flatten_rows acc (rows1 ++ rows2) =
  match flatten_rows acc rows1 with
  | Ok acc' => flatten_rows acc' rows2
  | Raise e => Raise e
  end.
Proof.
  revert acc. induction rows1 as [|row rows1 IH]; intros acc; simpl; [reflexivity|].
  unfold mbind, result_mbind, result_bind.
  destruct (flatten_row acc row) as [acc'|e]; [apply IH|reflexivity].
Qed.

(** A row whose geometry is a feature collection with a list of features. *)
Lemma flatten_row_collection acc row fc fs :
  row_get "geometry" row = Ok (PDict fc) ->
  assoc "features" fc = Some (PList fs) ->
  flatten_row acc row =
    Ok (acc.1 ++ fs, acc.2 ++ replicate (length fs) (row_drop "geometry" row)).
Proof.
  intros Hg Hf. unfold flatten_row. rewrite Hg.
  unfold mbind, result_mbind, result_bind. simpl.
  destruct fc as [|kv fc']; [discriminate Hf|]. simpl.
  unfold dict_get. rewrite Hf. reflexivity.
Qed.

(** A row the loop passes over. *)
Lemma flatten_row_skip acc row v :
  row_get "geometry" row = Ok v ->
  truthy v = false \/ isinstance_dict v = false ->
  flatten_row acc row = Ok acc.
Proof.
  intros Hg Hv. unfold flatten_row. rewrite Hg.
  unfold mbind, result_mbind, result_bind. simpl.
  destruct (truthy v) eqn:Ht; [|reflexivity].
  destruct Hv as [Hv|Hv]; [discriminate|].
  destruct v; try reflexivity. discriminate.
Qed.

Lemma py_iter_raises v e : py_iter v = Raise e -> is_Exception e = true.
Proof. destruct v; simpl; intros H; inversion H; reflexivity. Qed.

Lemma flatten_row_lengths acc row acc' :
  flatten_row acc row = Ok acc' ->
  length acc.1 = length acc.2 -> length acc'.1 = length acc'.2.
Proof.
  unfold flatten_row, row_get. unfold mbind, result_mbind, result_bind.
  destruct (assoc "geometry" row) as [v|]; [|discriminate].
  destruct (truthy v); [|intros H; inversion H; done].
  destruct v; try (intros H; inversion H; done).
  destruct (py_iter _) as [items|e]; [|discriminate].
  intros H Hl; inversion H; subst; simpl.
  rewrite !length_app, length_replicate. lia.
Qed.

Lemma flatten_row_raises acc row e :
  flatten_row acc row = Raise e -> is_Exception e = true.
Proof.
  unfold flatten_row, row_get. unfold mbind, result_mbind, result_bind.
  destruct (assoc "geometry" row) as [v|]; [|intros H; inversion H; reflexivity].
  destruct (truthy v); [|discriminate].
  destruct v; try discriminate.
  destruct (py_iter _) as [items|e'] eqn:Hi; [discriminate|].
  intros H; inversion H; subst. eapply py_iter_raises, Hi.
Qed.

Lemma flatten_rows_lengths rows : forall acc acc',
  flatten_rows acc rows = Ok acc' ->
  length acc.1 = length acc.2 -> length acc'.1 = length acc'.2.
Proof.
  induction rows as [|row rows IH]; intros acc acc'; simpl.
  - intros H; inversion H; done.
  - unfold mbind, result_mbind, result_bind.
    destruct (flatten_row acc row) as [acc1|e] eqn:Hr; [|discriminate].
    intros H Hl. eapply IH; [exact H|]. eapply flatten_row_lengths; eauto.
Qed.

Lemma flatten_rows_raises rows : forall acc e,
  flatten_rows acc rows = Raise e -> is_Exception e = true.
Proof.
  induction rows as [|row rows IH]; intros acc e; simpl; [discriminate|].
  unfold mbind, result_mbind, result_bind.
  destruct (flatten_row acc row) as [acc1|e'] eqn:Hr.
  - apply IH.
  - intros H; inversion H; subst. eapply flatten_row_raises, Hr.
Qed.

Lemma flatten_row_spec acc row fs :
  spec_features row = Some fs ->
  flatten_row acc row =
    Ok (acc.1 ++ fs, acc.2 ++ replicate (length fs) (row_drop "geometry" row)).
Proof.
  unfold spec_features. intros Hs.
  destruct (assoc "geometry" row) as [v|] eqn:Hg; [|discriminate].
  assert (Hget : row_get "geometry" row = Ok v) by (unfold row_get; now rewrite Hg).
  assert (Hskip : fs = [] -> flatten_row acc row = Ok acc ->
     flatten_row acc row =
       Ok (acc.1 ++ fs, acc.2 ++ replicate (length fs) (row_drop "geometry" row))).
  { intros -> ->. simpl. rewrite !app_nil_r. now destruct acc. }
  destruct v as [| |b|z|s|l|fc];
    try (inversion Hs; subst; apply Hskip; [done|];
         apply (flatten_row_skip acc row _ Hget); right; reflexivity).
  destruct (assoc "features" fc) as [f|] eqn:Hf.
  - destruct f; try discriminate. inversion Hs; subst.
    eapply flatten_row_collection; eauto.
  - inversion Hs; subst. apply Hskip; [done|].
    unfold flatten_row. rewrite Hget. unfold mbind, result_mbind, result_bind. simpl.
    destruct fc as [|kv fc']; [reflexivity|]. simpl.
    unfold dict_get. rewrite Hf. simpl. rewrite !app_nil_r. now destruct acc.
Qed.

Lemma flatten_rows_spec rows : forall acc pairs,
  spec_flatten rows = Some pairs ->
  flatten_rows acc rows = Ok (acc.1 ++ map fst pairs, acc.2 ++ map snd pairs).
Proof.
  induction rows as [|row rows IH]; intros acc pairs; simpl.
  - intros H; inversion H; subst. simpl. rewrite !app_nil_r. now destruct acc.
  - destruct (spec_features row) as [fs|] eqn:Hs; [|discriminate].
    destruct (spec_flatten rows) as [rest|] eqn:Hr; [|discriminate].
    intros H; inversion H; subst.
    rewrite (flatten_row_spec acc row fs Hs).
    unfold mbind, result_mbind, result_bind.
    rewrite (IH _ rest eq_refl). simpl.
    rewrite !map_app, !map_map. simpl. rewrite map_id.
    rewrite <- !app_assoc. f_equal. f_equal. f_equal.
    clear. induction fs; simpl; congruence.
Qed.

(** What a row adds does not depend on what was gathered before it. *)
Lemma flatten_row_alone acc row :
  flatten_row acc row =
    match flatten_row ([], []) row with
    | Ok own => Ok (acc.1 ++ own.1, acc.2 ++ own.2)
    | Raise e => Raise e
    end.
Proof.
  unfold flatten_row. unfold mbind, result_mbind, result_bind.
  destruct (row_get "geometry" row) as [v|e]; [|reflexivity].
  destruct (truthy v); [|cbn; rewrite !app_nil_r; now destruct acc].
  destruct v; try (cbn; rewrite !app_nil_r; now destruct acc).
  destruct (py_iter _); reflexivity.
Qed.

Lemma assoc_zip_absent (c : string) cols : forall (vs : list pyval),
  existsb (String.eqb c) cols = false -> assoc c (zip cols vs) = None.
Proof.
  induction cols as [|c' cols IH]; intros vs; simpl; [reflexivity|].
  intros H. apply orb_false_iff in H as [Hc Hrest].
  destruct vs as [|v vs]; simpl; [reflexivity|]. rewrite Hc. now apply IH.
Qed.

(** What a row adds when the loop body goes through on it: its features,
    and one copy of its non-geometry columns for each of them. *)
Lemma flatten_row_own row own :
  flatten_row ([], []) row = Ok own ->
  own.2 = replicate (length own.1) (row_drop "geometry" row).
Proof.
  unfold flatten_row. unfold mbind, result_mbind, result_bind.
  destruct (row_get "geometry" row) as [v|e]; [|discriminate].
  destruct (truthy v); [|intros H; inversion H; reflexivity].
  destruct v; try (intros H; inversion H; reflexivity).
  destruct (py_iter _) as [items|e]; [|discriminate].
  intros H; inversion H; reflexivity.
Qed.

(** The mappings the loop gathers beside the features [per_row] of the
    rows: for each row, as many copies of its non-geometry columns as it
    has features. *)
Lemma flatten_rows_cases rows : forall acc,
  (exists row e, row ∈ rows /\ flatten_row ([], []) row = Raise e /\
                 flatten_rows acc rows = Raise e) \/
  (exists per_row,
     Forall2 (fun row items =>
                flatten_row ([], []) row =
                  Ok (items, replicate (length items) (row_drop "geometry" row)))
             rows per_row /\
     flatten_rows acc rows =
       Ok (acc.1 ++ concat per_row,
           acc.2 ++ concat (zip_with (fun row items =>
                                        replicate (length items) (row_drop "geometry" row))
                                     rows per_row))).
Proof.
  induction rows as [|row rows IH]; intros acc.
  - right. exists []. split; [constructor|]. cbn. rewrite !app_nil_r. now destruct acc.
  - cbn. unfold mbind, result_mbind, result_bind. rewrite flatten_row_alone.
    destruct (flatten_row ([], []) row) as [own|e] eqn:Hown.
    + pose proof (flatten_row_own row own Hown) as Hrd.
      destruct (IH (acc.1 ++ own.1, acc.2 ++ own.2))
        as [(row' & e & Hin & Hr & Hf)|(per_row & Hall & Hf)].
      * left. exists row', e. split; [now right|]. split; [exact Hr|exact Hf].
      * right. exists (own.1 :: per_row). split.
        -- constructor; [|exact Hall]. rewrite <- Hrd. now destruct own.
        -- rewrite Hf. cbn. rewrite <- Hrd, <- !app_assoc. reflexivity.
    + left. exists row, e. split; [now left|]. split; [exact Hown|reflexivity].
Qed.

(** Rows whose geometry cell is there and null add nothing. *)
Lemma flatten_rows_null_cells rows : forall acc,
  Forall (fun row => exists v, assoc "geometry" row = Some v /\ is_null v) rows ->
  flatten_rows acc rows = Ok acc.
Proof.
  induction rows as [|row rows IH]; intros acc Hall; [reflexivity|].
  inversion Hall as [|? ? (v & Hv & Hnull) Hrest]; subst.
  cbn. unfold mbind, result_mbind, result_bind.
  rewrite (flatten_row_skip acc row v).
  - now apply IH.
  - unfold row_get. now rewrite Hv.
  - destruct Hnull as [-> | ->]; [left|right]; reflexivity.
Qed.

End FlattenFacts.

Section GeometryFacts.
Import MapPage.
Context (L : Library).
Implicit Types (o : Outside) (w : World (Point L)).

Lemma dumps_all_each rds : forall strs,
  dumps_all L rds = Ok strs ->
  Forall2 (fun r s => json_dumps L r = inr s) rds strs.
Proof.
  induction rds as [|r rds IH]; intros strs; simpl.
  - intros H; inversion H; constructor.
  - unfold mbind, result_mbind, result_bind, called.
    destruct (json_dumps L r) as [m|s] eqn:Hj; [discriminate|].
    destruct (dumps_all L rds) as [ss|e]; [|discriminate].
    intros H; inversion H; subst. constructor; [exact Hj|]. now apply IH.
Qed.

Lemma build_frame_raises fs rds e :
  build_frame L fs rds = Raise e -> is_Exception e = true.
Proof.
  assert (Hd : forall rows e', dumps_all L rows = Raise e' -> is_Exception e' = true).
  { induction rows as [|r rows IH]; intros e'; simpl; [discriminate|].
    unfold mbind, result_mbind, result_bind, called.
    destruct (json_dumps L r); [intros H; inversion H; reflexivity|].
    destruct (dumps_all L rows) as [ss|e1]; [discriminate|].
    intros H; inversion H; subst. now apply IH. }
  unfold build_frame. unfold mbind, result_mbind, result_bind, called.
  destruct (from_features L fs); [intros H; inversion H; reflexivity|].
  destruct (to_crs L _); [intros H; inversion H; reflexivity|].
  destruct rds as [|r rds]; [discriminate|].
  destruct (dumps_all L (r :: rds)) as [ss|e1] eqn:Hs.
  - destruct (set_row_data L _ ss); [intros H; inversion H; reflexivity|discriminate].
  - intros H; inversion H; subst. eapply Hd, Hs.
Qed.

Lemma try_body_raises data e :
  try_body L data = Raise e -> is_Exception e = true.
Proof.
  unfold try_body, flatten. unfold mbind, result_mbind, result_bind.
  destruct (flatten_rows _ _) as [[fs rds]|e'] eqn:Hf.
  - apply build_frame_raises.
  - intros H; inversion H; subst. eapply flatten_rows_raises, Hf.
Qed.

(** [process_geometry] never raises: it returns the frame, or shows the
    error and returns the empty frame. *)
Lemma process_geometry_body_run data o w :
  process_geometry_body L data o w =
    match try_body L data with
    | Ok gdf => (Ok gdf, w)
    | Raise e =>
        (Ok (gpd_GeoDataFrame L),
         set_screen L (screen w ++ [StError ("Error processing geometry: " +:+ exn_str e)]) w)
    end.
Proof.
  unfold process_geometry_body. unfold_script.
  destruct (try_body L data) as [gdf|e] eqn:Ht; [reflexivity|].
  now rewrite (try_body_raises data e Ht).
Qed.

(** C2, as the code has it. (1) Whatever the loop has gathered so far, on
    a row whose geometry is a feature collection with the features [fs] the
    loop body appends exactly these features and as many copies of the
    row's non-geometry columns. (2) On every table one of two things
    happens. Either the loop body raises on some row: then the loop raises,
    [process_geometry] shows its error message and returns the frame
    [gpd.GeoDataFrame()], and no feature of any row is emitted. Or the loop
    completes: then what it gathered is, row after row, the features of the
    row and one copy of the row's non-geometry columns for each, and a row
    that holds a feature collection with the features [fs] has contributed
    exactly [fs]. (3) Whenever the loop completes there are as many
    attribute mappings as features, and the strings made of them for
    display are as many, the i-th being the serialization of the i-th
    mapping. (4) A frame that the try block builds is made from these
    features and carries these strings as its row_data column. (5) On the
    tables the spec speaks of the loop completes and yields each feature of
    each row paired with that row's columns. (6) Whenever the try block
    raises, the frame returned is [gpd.GeoDataFrame()]. *)
Theorem flatten_one_mapping_per_feature :
  (forall acc row fc fs,
     row_get "geometry" row = Ok (PDict fc) ->
     assoc "features" fc = Some (PList fs) ->
     flatten_row acc row =
       Ok (acc.1 ++ fs, acc.2 ++ replicate (length fs) (row_drop "geometry" row))) /\
  (forall data,
     (exists row e,
        row ∈ iterrows data /\ flatten_row ([], []) row = Raise e /\
        flatten data = Raise e /\
        forall o w,
          process_geometry_body L data o w =
            (Ok (gpd_GeoDataFrame L),
             set_screen L (screen w ++ [StError ("Error processing geometry: " +:+ exn_str e)]) w)) \/
     (exists per_row,
        Forall2 (fun row items =>
                   flatten_row ([], []) row =
                     Ok (items, replicate (length items) (row_drop "geometry" row)))
                (iterrows data) per_row /\
        flatten data =
          Ok (concat per_row,
              concat (zip_with (fun row items =>
                                  replicate (length items) (row_drop "geometry" row))
                               (iterrows data) per_row)) /\
        forall i row fc fs,
          iterrows data !! i = Some row ->
          row_get "geometry" row = Ok (PDict fc) ->
          assoc "features" fc = Some (PList fs) ->
          per_row !! i = Some fs)) /\
  (forall data fs rds,
     flatten data = Ok (fs, rds) ->
     length rds = length fs /\
     forall strs, dumps_all L rds = Ok strs ->
       length strs = length fs /\
       Forall2 (fun r s => json_dumps L r = inr s) rds strs) /\
  (forall data gdf,
     try_body L data = Ok gdf ->
     exists fs rds g0 g1,
       flatten data = Ok (fs, rds) /\ length rds = length fs /\
       from_features L fs = inr g0 /\ to_crs L g0 = inr g1 /\
       ((rds = [] /\ gdf = g1) \/
        exists strs, dumps_all L rds = Ok strs /\ length strs = length fs /\
                     set_row_data L g1 strs = inr gdf)) /\
  (forall data pairs,
     spec_flatten (iterrows data) = Some pairs ->
     flatten data = Ok (map fst pairs, map snd pairs)) /\
  (forall data e o w,
     try_body L data = Raise e ->
     process_geometry_body L data o w =
       (Ok (gpd_GeoDataFrame L),
        set_screen L (screen w ++ [StError ("Error processing geometry: " +:+ exn_str e)]) w)).
Proof.
  assert (Hlen : forall data fs rds, flatten data = Ok (fs, rds) -> length rds = length fs).
  { intros data fs rds Hf. unfold flatten in Hf.
    apply flatten_rows_lengths in Hf; simpl in *; [lia|reflexivity]. }
  assert (Hstr : forall rds strs, dumps_all L rds = Ok strs -> length strs = length rds).
  { intros rds strs Hd. apply dumps_all_each in Hd.
    symmetry. eapply Forall2_length, Hd. }
  split; [intros acc row fc fs Hg Hf; now apply (flatten_row_collection acc row fc fs)|].
  split.
  { intros data. unfold flatten.
    destruct (flatten_rows_cases (iterrows data) ([], []))
      as [(row & e & Hin & Hr & Hf)|(per_row & Hall & Hf)].
    - left. exists row, e. split; [exact Hin|]. split; [exact Hr|]. split; [exact Hf|].
      intros o w. rewrite process_geometry_body_run. unfold try_body, flatten.
      now rewrite Hf.
    - right. exists per_row. split; [exact Hall|]. split; [exact Hf|].
      intros i row fc fs Hi Hg Hfs.
      destruct (Forall2_lookup_l _ _ _ i row Hall Hi) as (items & Hitems & Hown).
      rewrite (flatten_row_collection ([], []) row fc fs Hg Hfs) in Hown.
      cbn in Hown. inversion Hown; subst. exact Hitems. }
  split.
  { intros data fs rds Hf. pose proof (Hlen _ _ _ Hf) as Hl. split; [exact Hl|].
    intros strs Hd. split; [rewrite (Hstr _ _ Hd); exact Hl|now apply dumps_all_each]. }
  split.
  { intros data gdf Ht. unfold try_body in Ht.
    unfold mbind, result_mbind, result_bind in Ht.
    destruct (flatten data) as [[fs rds]|e] eqn:Hf; [|discriminate].
    unfold build_frame in Ht. unfold mbind, result_mbind, result_bind, called in Ht.
    destruct (from_features L fs) as [m|g0] eqn:H0; [discriminate|].
    destruct (to_crs L g0) as [m|g1] eqn:H1; [discriminate|].
    exists fs, rds, g0, g1. pose proof (Hlen _ _ _ Hf) as Hl.
    repeat (split; [done|]).
    destruct rds as [|r rds].
    - left. inversion Ht. done.
    - right. destruct (dumps_all L (r :: rds)) as [strs|e] eqn:Hd; [|discriminate].
      exists strs. split; [done|]. split; [rewrite (Hstr _ _ Hd); exact Hl|].
      destruct (set_row_data L g1 strs); [discriminate|]. inversion Ht. done. }
  split.
  { intros data pairs Hs. unfold flatten.
    now rewrite (flatten_rows_spec _ ([], []) pairs Hs). }
  intros data e o w Ht. rewrite process_geometry_body_run. now rewrite Ht.
Qed.

(** C9: a row whose geometry is truthy but not a dict leaves the loop's
    accumulators as they are, whatever they hold; a table with such a row
    flattens to what the table without the row flattens to, and
    [process_geometry] on it returns the same frame and shows the same
    messages as on the table without the row: the row adds no feature, no
    attribute mapping, no exception and no message. *)
Theorem non_dict_geometry_is_skipped cols pre vs post v o w :
  row_get "geometry" (zip cols vs) = Ok v ->
  truthy v = true ->
  isinstance_dict v = false ->
  (forall acc, flatten_row acc (zip cols vs) = Ok acc) /\
  flatten (mkDataFrame cols (pre ++ vs :: post)) = flatten (mkDataFrame cols (pre ++ post)) /\
  process_geometry_body L (mkDataFrame cols (pre ++ vs :: post)) o w =
    process_geometry_body L (mkDataFrame cols (pre ++ post)) o w.
Proof.
  intros Hg Ht Hd.
  assert (Hskip : forall acc, flatten_row acc (zip cols vs) = Ok acc).
  { intros acc. eapply flatten_row_skip; eauto. }
  assert (Hflat : flatten (mkDataFrame cols (pre ++ vs :: post))
                  = flatten (mkDataFrame cols (pre ++ post))).
  { unfold flatten, iterrows. simpl. rewrite !map_app, !flatten_rows_app. simpl.
    destruct (flatten_rows _ _) as [acc|e]; [|reflexivity].
    rewrite Hskip. reflexivity. }
  split; [exact Hskip|]. split; [exact Hflat|].
  rewrite !process_geometry_body_run. unfold try_body. now rewrite Hflat.
Qed.

End GeometryFacts.

(** ** The map page *)

Section PageFacts.
Import MapPage.
Context (L : Library).
Implicit Types (o : Outside) (w : World (Point L)).

Lemma process_geometry_run data o w :
  process_geometry L data o w =
    process_geometry_body L data o
      (set_process_geometry_cache L (data :: process_geometry_cache w) w).
Proof. reflexivity. Qed.

Lemma charts_app (a b : list (Element (Point L))) :
  charts L (a ++ b) = charts L a ++ charts L b.
Proof. unfold charts. apply omap_app. Qed.

Lemma take_rows_spec vs idx : forall rs,
  take_rows vs idx = Ok rs -> Forall2 (fun i r => vs !! i = Some r) idx rs.
Proof.
  induction idx as [|i idx IH]; intros rs; simpl.
  - intros H; inversion H; constructor.
  - destruct (vs !! i) as [r|] eqn:Hi; [|discriminate].
    unfold result_bind. destruct (take_rows vs idx) as [rs'|e]; [|discriminate].
    intros H; inversion H; subst. constructor; [exact Hi|]. now apply IH.
Qed.

Lemma iloc_spec table idx st :
  iloc table idx = Ok st ->
  columns st = columns table /\
  Forall2 (fun i r => values table !! i = Some r) idx (values st).
Proof.
  unfold iloc, result_bind.
  destruct (take_rows (values table) idx) as [rs|e] eqn:Ht; [|discriminate].
  intros H; inversion H; subst; simpl. split; [reflexivity|]. now apply take_rows_spec.
Qed.

(** After lines 71-74 the stored selection is what the grid reports. *)
Lemma update_selection_run ev o w :
  update_selection L ev o w =
    (Ok tt, set_session_state L (<["selected_rows" := reported_rows ev]> (session_state w)) w).
Proof.
  unfold update_selection, reported_rows, set_selected_rows.
  destruct (selection_rows ev) as [[|r rows]|]; reflexivity.
Qed.

(** The frame [process_geometry] returns for a table. *)
Lemma process_geometry_frame data o w :
  (process_geometry L data o w).1 =
    Ok (match try_body L data with Ok g => g | Raise _ => gpd_GeoDataFrame L end).
Proof.
  rewrite process_geometry_run, process_geometry_body_run.
  destruct (try_body L data); reflexivity.
Qed.

Lemma process_geometry_effect data o w :
  let w' := (process_geometry L data o w).2 in
  session_state w' = session_state w /\ load_data_cache w' = load_data_cache w /\
  log w' = log w /\ database w' = database w /\ engine_cache w' = engine_cache w /\
  charts L (screen w') = charts L (screen w).
Proof.
  rewrite process_geometry_run, process_geometry_body_run.
  destruct (try_body L data); cbn; repeat split; try reflexivity.
  unfold charts. rewrite omap_app. cbn. now rewrite app_nil_r.
Qed.

(** The frame a table is drawn from: what [process_geometry] returns. *)
Lemma process_geometry_pair data o w :
  process_geometry L data o w =
    (Ok (match try_body L data with Ok g => g | Raise _ => gpd_GeoDataFrame L end),
     (process_geometry L data o w).2).
Proof.
  pose proof (process_geometry_frame data o w) as H.
  destruct (process_geometry L data o w) as [r w']. simpl in *. now rewrite H.
Qed.

Lemma build_layers_run table gdf o w sel g :
  session_state w !! "selected_rows" = Some sel ->
  gdf_geojson L gdf = inr g ->
  build_layers L table gdf o w =
    match sel with
    | [] => (Ok [base_layer g 255], w)
    | _ :: _ =>
        match iloc table sel with
        | Raise e => (Raise e, w)
        | Ok st =>
            let wp := (process_geometry L st o w).2 in
            let sgdf := match try_body L st with
                        | Ok sg => sg
                        | Raise _ => gpd_GeoDataFrame L
                        end in
            if gdf_empty L sgdf then (Ok [base_layer g 100], wp)
            else match gdf_geojson L sgdf with
                 | inr sg => (Ok [base_layer g 100; highlight_layer sg], wp)
                 | inl m => (Raise (LibraryError m), wp)
                 end
        end
    end.
Proof.
  intros Hsel Hg. unfold build_layers, get_selected_rows. unfold_script.
  rewrite Hsel, Hg. cbn.
  destruct sel as [|r sel]; [reflexivity|].
  destruct (iloc table (r :: sel)) as [st|e]; [|reflexivity]. cbn.
  rewrite (process_geometry_pair st o w). cbn.
  destruct (gdf_empty L _); cbn; [reflexivity|].
  match goal with |- context [called (gdf_geojson L ?x)] =>
    destruct (gdf_geojson L x) end; reflexivity.
Qed.

Lemma page_with_table_shown ev table o w :
  df_empty table || negb (has_column "geometry" table) = false ->
  page_with_table L ev false table o w =
    map_view L table o
      (set_screen L (screen w ++ [StSubheader "Data Table"; StDataframe table;
                                  StButton "Refresh data"])
         (set_session_state L (<["selected_rows" := reported_rows ev]> (session_state w)) w)).
Proof.
  intros Hc. unfold page_with_table. rewrite Hc. unfold_script.
  rewrite update_selection_run. cbv beta iota.
  match goal with |- map_view L table o ?a = map_view L table o ?b =>
    assert (Heq : a = b) by same_world; now rewrite Heq end.
Qed.

Lemma page_with_table_hidden ev c table o w :
  df_empty table || negb (has_column "geometry" table) = true ->
  page_with_table L ev c table o w =
    (Raise StopException,
     set_screen L (screen w ++ [StWarning "No data available or geometry column missing."]) w).
Proof.
  intros Hc. unfold page_with_table. rewrite Hc. reflexivity.
Qed.

Lemma map_view_run table o w :
  map_view L table o w =
    let wp := (process_geometry L table o
                 (set_screen L (screen w ++ [StSubheader "Map View"]) w)).2 in
    let gdf := match try_body L table with
               | Ok g => g
               | Raise _ => gpd_GeoDataFrame L
               end in
    if gdf_empty L gdf
    then (Ok tt, set_screen L (screen wp ++ [StError "Could not process geometry data."]) wp)
    else match gdf_centroid L gdf with
         | inl m => (Raise (LibraryError m), wp)
         | inr c =>
             match build_layers L table gdf o wp with
             | (Ok layers, wl) =>
                 (Ok tt, set_screen L (screen wl ++ [StPydeckChart (mkDeck layers c 15 tooltip)]) wl)
             | (Raise e, wl) => (Raise e, wl)
             end
         end.
Proof.
  unfold map_view. unfold_script. cbv beta.
  rewrite (process_geometry_pair table o _). cbv beta iota zeta.
  destruct (gdf_empty L _); cbn; [reflexivity|].
  destruct (gdf_centroid L _); cbn; [reflexivity|].
  destruct (build_layers L table _ o _) as [[layers|e] wl]; reflexivity.
Qed.

(** C3, as the code has it: on a run that is not a refresh, with a table
    that passes the check and processes to a nonempty frame [gdf] (with its
    centre and its GeoJSON at hand), the page draws exactly one chart more.
    When the grid reports no rows, the chart has one layer, the base layer
    with alpha 255. When the grid reports rows, the base layer has alpha
    100, and the chart has a second layer exactly when the frame processed
    from the reported rows of the table is not empty: that layer is the
    highlight layer over that frame. When that frame is empty (the rows
    hold no feature, or processing them failed) the chart has the base
    layer alone. When the reported rows are out of range, or the GeoJSON of
    the selected frame cannot be made, the run ends in that exception and
    no chart is drawn. *)
Theorem layers_follow_selection ev table o w gdf c g :
  df_empty table || negb (has_column "geometry" table) = false ->
  try_body L table = Ok gdf ->
  gdf_empty L gdf = false ->
  gdf_centroid L gdf = inr c ->
  gdf_geojson L gdf = inr g ->
  let run := page_with_table L ev false table o w in
  match reported_rows ev with
  | [] =>
      run.1 = Ok tt /\
      charts L (screen run.2) = charts L (screen w) ++ [mkDeck [base_layer g 255] c 15 tooltip]
  | _ :: _ =>
      match iloc table (reported_rows ev) with
      | Raise e => run.1 = Raise e /\ charts L (screen run.2) = charts L (screen w)
      | Ok st =>
          columns st = columns table /\
          Forall2 (fun i r => values table !! i = Some r) (reported_rows ev) (values st) /\
          let sgdf := match try_body L st with
                      | Ok sg => sg
                      | Raise _ => gpd_GeoDataFrame L
                      end in
          if gdf_empty L sgdf
          then run.1 = Ok tt /\
               charts L (screen run.2) =
                 charts L (screen w) ++ [mkDeck [base_layer g 100] c 15 tooltip]
          else match gdf_geojson L sgdf with
               | inr sg =>
                   run.1 = Ok tt /\
                   charts L (screen run.2) =
                     charts L (screen w) ++
                     [mkDeck [base_layer g 100; highlight_layer sg] c 15 tooltip]
               | inl m =>
                   run.1 = Raise (LibraryError m) /\
                   charts L (screen run.2) = charts L (screen w)
               end
      end
  end.
Proof.
  intros Hcheck Htry Hne Hc Hg run. subst run.
  rewrite (page_with_table_shown ev table o w Hcheck), map_view_run.
  cbv zeta. rewrite Htry, Hne, Hc.
  match goal with |- context [build_layers L table gdf o ?wp] => set (w1 := wp) end.
  assert (Hw1 : session_state w1 !! "selected_rows" = Some (reported_rows ev) /\
                charts L (screen w1) = charts L (screen w)).
  { subst w1.
    match goal with |- context [process_geometry L table o ?w0] =>
      destruct (process_geometry_effect table o w0) as (Hs & _ & _ & _ & _ & Hch) end.
    rewrite Hs, Hch. cbn. rewrite lookup_insert_eq. split; [reflexivity|].
    unfold charts. rewrite !omap_app. cbn. now rewrite !app_nil_r. }
  destruct Hw1 as [Hsel Hch].
  rewrite (build_layers_run table gdf o w1 (reported_rows ev) g Hsel Hg).
  destruct (reported_rows ev) as [|r sel] eqn:Hrep.
  { cbn. split; [reflexivity|]. unfold charts in *. rewrite omap_app, Hch. reflexivity. }
  rewrite <- Hrep in *.
  destruct (iloc table (reported_rows ev)) as [st|e] eqn:Hi.
  2:{ cbn. split; [reflexivity|exact Hch]. }
  destruct (iloc_spec table (reported_rows ev) st Hi) as [Hcols Hrows].
  split; [exact Hcols|]. split; [exact Hrows|].
  cbv zeta.
  destruct (process_geometry_effect st o w1) as (_ & _ & _ & _ & _ & Hch2).
  match goal with |- context [gdf_empty L ?x] => set (sgdf := x) in * end.
  destruct (gdf_empty L sgdf).
  { cbn. split; [reflexivity|]. unfold charts in *. rewrite omap_app, Hch2, Hch. reflexivity. }
  destruct (gdf_geojson L sgdf).
  { cbn. split; [reflexivity|]. now rewrite Hch2. }
  cbn. split; [reflexivity|]. unfold charts in *. rewrite omap_app, Hch2, Hch. reflexivity.
Qed.

(** A frame built from no feature at all is empty, also when geopandas
    refuses to build it and [gpd.GeoDataFrame()] is returned instead. *)
Lemma no_features_frame_empty :
  LibraryLaws L ->
  gdf_empty L (match build_frame L [] [] with
               | Ok g => g
               | Raise _ => gpd_GeoDataFrame L
               end) = true.
Proof.
  intros Hlaws. unfold build_frame. unfold mbind, result_mbind, result_bind, called.
  destruct (from_features L []) as [m|g0] eqn:H0; [apply (empty_frame_empty L Hlaws)|].
  destruct (to_crs L g0) as [m|g1] eqn:H1; [apply (empty_frame_empty L Hlaws)|].
  rewrite (to_crs_empty L Hlaws g0 g1 H1). apply (no_features_empty L Hlaws g0 H0).
Qed.

(** Without the geometry column the loop fails at the first row, if there
    is one. *)
Lemma flatten_without_column table :
  has_column "geometry" table = false ->
  flatten table =
    match values table with [] => Ok ([], []) | _ :: _ => Raise (KeyError "geometry") end.
Proof.
  intros Hcol. unfold flatten, iterrows. destruct table as [cols vals]. cbn in *.
  destruct vals as [|vs rest]; [reflexivity|]. cbn.
  unfold flatten_row, row_get. unfold has_column in Hcol. cbn in Hcol.
  now rewrite (assoc_zip_absent "geometry" cols vs Hcol).
Qed.

(** C8: take a table in which no row holds a geometry collection.
    (a) When the geometry cell of every row is there and null (None or
    NaN), the loop completes and gathers no feature and no attribute
    mapping; [process_geometry] returns an empty frame and raises nothing;
    the page, on a run that is not a refresh, draws no chart and ends
    without an exception: on a table without rows it shows the warning
    "No data available or geometry column missing." and stops; otherwise
    it shows the table and the button and last the error "Could not
    process geometry data.", and the script completes. The one message
    that may come before that error is that of geopandas when it refuses
    to build a frame from no features; the loop contributes none.
    (b) When the geometry column is absent, the page shows the warning and
    stops before [process_geometry] is reached; called on such a table,
    [process_geometry] meets the KeyError of [row['geometry']] at the first
    row (a table without rows gives no feature either), catches it and
    returns an empty frame. *)
Theorem no_geometry_reports_no_data ev table o w :
  LibraryLaws L ->
  let run := page_with_table L ev false table o w in
  let called_alone := process_geometry L table o w in
  (Forall (fun row => exists v, assoc "geometry" row = Some v /\ is_null v) (iterrows table) ->
   flatten table = Ok ([], []) /\
   (exists g, called_alone.1 = Ok g /\ gdf_empty L g = true) /\
   charts L (screen run.2) = charts L (screen w) /\
   if df_empty table
   then run.1 = Raise StopException /\
        screen run.2 = screen w ++ [StWarning "No data available or geometry column missing."]
   else run.1 = Ok tt /\
        screen run.2 =
          screen w ++
          [StSubheader "Data Table"; StDataframe table; StButton "Refresh data";
           StSubheader "Map View"] ++
          match build_frame L [] [] with
          | Ok _ => []
          | Raise e => [StError ("Error processing geometry: " +:+ exn_str e)]
          end ++
          [StError "Could not process geometry data."]) /\
  (has_column "geometry" table = false ->
   flatten table =
     match values table with [] => Ok ([], []) | _ :: _ => Raise (KeyError "geometry") end /\
   (exists g, called_alone.1 = Ok g /\ gdf_empty L g = true) /\
   run.1 = Raise StopException /\
   screen run.2 = screen w ++ [StWarning "No data available or geometry column missing."] /\
   process_geometry_cache run.2 = process_geometry_cache w).
Proof.
  intros Hlaws run called_alone. subst run called_alone. split.
  - intros Hnull.
    assert (Hflat : flatten table = Ok ([], []))
      by (apply (flatten_rows_null_cells (iterrows table) ([], []) Hnull)).
    assert (Htry : try_body L table = build_frame L [] [])
      by (unfold try_body; now rewrite Hflat).
    split; [exact Hflat|].
    split.
    { eexists. split; [apply process_geometry_frame|].
      rewrite Htry. apply (no_features_frame_empty Hlaws). }
    destruct (df_empty table) eqn:Hempty.
    { rewrite (page_with_table_hidden ev false table o w) by (now rewrite Hempty). cbn.
      split; [|split; reflexivity].
      unfold charts. rewrite omap_app. cbn. now rewrite app_nil_r. }
    assert (Hcheck : df_empty table || negb (has_column "geometry" table) = false).
    { rewrite Hempty. cbn. apply negb_false_iff.
      destruct (has_column "geometry" table) eqn:Hcol; [reflexivity|exfalso].
      destruct table as [cols vals]. unfold df_empty in Hempty. cbn in *.
      apply orb_false_iff in Hempty as [_ Hvals].
      destruct vals as [|vs rest]; [discriminate Hvals|].
      cbn in Hnull. inversion Hnull as [|? ? (v & Hv & _) _]; subst.
      unfold has_column in Hcol. cbn in Hcol.
      rewrite (assoc_zip_absent "geometry" cols vs Hcol) in Hv. discriminate. }
    rewrite (page_with_table_shown ev table o w Hcheck), map_view_run. cbv zeta.
    rewrite Htry, (no_features_frame_empty Hlaws).
    rewrite process_geometry_run, process_geometry_body_run, Htry.
    destruct (build_frame L [] []) as [g|e]; cbn.
    + split; [unfold charts; rewrite !omap_app; cbn; now rewrite !app_nil_r|].
      split; [reflexivity|]. rewrite <- !app_assoc. reflexivity.
    + split; [unfold charts; rewrite !omap_app; cbn; now rewrite !app_nil_r|].
      split; [reflexivity|]. rewrite <- !app_assoc. reflexivity.
  - intros Hcol.
    pose proof (flatten_without_column table Hcol) as Hflat.
    split; [exact Hflat|].
    split.
    { eexists. split; [apply process_geometry_frame|].
      unfold try_body. rewrite Hflat.
      destruct (values table); [apply (no_features_frame_empty Hlaws)|].
      apply (empty_frame_empty L Hlaws). }
    rewrite (page_with_table_hidden ev false table o w)
      by (rewrite Hcol; apply orb_true_r).
    cbn. repeat split; reflexivity.
Qed.

Lemma page_with_table_refresh ev table o w :
  df_empty table || negb (has_column "geometry" table) = false ->
  page_with_table L ev true table o w =
    (Raise RerunException,
     set_session_state L
       (<["selected_rows" := []]> (<["selected_rows" := reported_rows ev]> (session_state w)))
       (set_process_geometry_cache L []
          (set_load_data_cache L ∅
             (set_screen L (screen w ++ [StSubheader "Data Table"; StDataframe table;
                                         StButton "Refresh data"]) w)))).
Proof.
  intros Hc. unfold page_with_table, refresh_data, process_geometry_clear,
    set_selected_rows, load_data_clear.
  rewrite Hc. unfold_script. rewrite update_selection_run. cbv beta iota.
  f_equal. same_world.
Qed.

Lemma page_with_table_after_grid ev c table o w :
  df_empty table || negb (has_column "geometry" table) = false ->
  page_with_table L ev c table o w =
    (draw L (StButton "Refresh data");;
     (if c then refresh_data L else mret tt);;
     map_view L table) o
      (set_session_state L (<["selected_rows" := reported_rows ev]> (session_state w))
         (set_screen L (screen w ++ [StSubheader "Data Table"; StDataframe table]) w)).
Proof.
  intros Hc. unfold page_with_table. rewrite Hc. unfold_script.
  rewrite update_selection_run. cbv beta iota.
  match goal with |- context [set_screen L (screen ?a ++ [StButton _]) ?a] =>
    match goal with |- context [set_screen L (screen ?b ++ [StButton _]) ?b] =>
      tryif constr_eq a b then fail else
        (assert (Heq : a = b) by same_world; now rewrite Heq)
    end
  end.
Qed.

(** What a run shows does not depend on the selection stored before it:
    lines 71-74 overwrite it with what the grid reports in this run. *)
Lemma page_with_table_ignores_stored_selection ev c table o w rows rows' :
  let run1 := page_with_table L ev c table o
                (set_session_state L (<["selected_rows" := rows]> (session_state w)) w) in
  let run2 := page_with_table L ev c table o
                (set_session_state L (<["selected_rows" := rows']> (session_state w)) w) in
  run1.1 = run2.1 /\ screen run1.2 = screen run2.2 /\
  (df_empty table || negb (has_column "geometry" table) = false -> run1 = run2).
Proof.
  intros run1 run2. subst run1 run2.
  destruct (df_empty table || negb (has_column "geometry" table)) eqn:Hc.
  - rewrite !(page_with_table_hidden ev c table o _ Hc). cbn.
    split; [reflexivity|]. split; [reflexivity|discriminate].
  - rewrite !(page_with_table_after_grid ev c table o _ Hc).
    match goal with |- (?f o ?a).1 = (?f o ?b).1 /\ _ =>
      assert (Heq : a = b)
        by (apply world_ext; cbn; rewrite ?insert_insert_eq; reflexivity);
      rewrite Heq end.
    auto.
Qed.

End PageFacts.

(** ** The properties on concrete runs *)

Lemma reflib_laws : LibraryLaws RefLib.lib.
Proof.
  constructor.
  - reflexivity.
  - intros g H. discriminate H.
  - intros g g' H. inversion H. reflexivity.
Qed.

(** Started without DB_HOST, engine creation raises the configuration
    error and does nothing else. *)
Lemma missing_setting_witness :
  exists k',
    k' ∈ required_settings /\ environ RefLib.no_host !! k' = None /\
    _create_database_engine RefLib.lib (RefLib.calm 0) RefLib.no_host =
      (Raise (EnvironmentError ("Missing required environment variable: '" +:+ k' +:+ "'")),
       RefLib.no_host) /\
    (engine_cache RefLib.no_host = None ->
     get_database_engine RefLib.lib (RefLib.calm 0) RefLib.no_host =
       (Raise (EnvironmentError ("Missing required environment variable: '" +:+ k' +:+ "'")),
        RefLib.no_host)).
Proof.
  apply (missing_setting_is_configuration_error RefLib.lib (RefLib.calm 0)
           RefLib.no_host "DB_HOST").
  - unfold required_settings. repeat constructor.
  - vm_compute. reflexivity.
Defined.

(** The first query of a fresh process is executed and cached. *)
Lemma load_data_memoised_witness :
  let w1 := (load_data RefLib.lib RefLib.test_sql (RefLib.calm 0) RefLib.fresh).2 in
  exists created,
    load_data_cache w1 !! RefLib.test_sql = Some (RefLib.people_table, created) /\
    (created = now (RefLib.calm 0) \/ (w1 = RefLib.fresh /\ now (RefLib.calm 0) < created + 600)) /\
    (forall o2, now o2 < created + 600 ->
       load_data RefLib.lib RefLib.test_sql o2 w1 = (Ok RefLib.people_table, w1)) /\
    (forall o3,
       let cleared := (load_data_clear RefLib.lib o3 w1).2 in
       load_data_cache cleared = ∅ /\
       load_data RefLib.lib RefLib.test_sql o3 cleared
         = load_data_miss RefLib.lib RefLib.test_sql o3 cleared /\
       (is_Some (engine_cache w1) ->
        log (load_data RefLib.lib RefLib.test_sql o3 cleared).2
          = log w1 ++ [EvQuery RefLib.test_sql])).
Proof.
  intros w1.
  apply (load_data_memoised RefLib.lib (RefLib.calm 0) RefLib.fresh RefLib.test_sql
           RefLib.people_table w1).
  vm_compute. reflexivity.
Defined.

(** A save whose insert breaks after one row: rolled back, table as
    before, error shown. *)
Lemma save_is_all_or_nothing_witness :
  let run := Editor.save_changes RefLib.lib RefLib.people_edited RefLib.insert_breaks RefLib.warm in
  let w1 := (get_database_engine RefLib.lib RefLib.insert_breaks RefLib.warm).2 in
  run.1 = Ok tt /\
  database run.2 = database RefLib.warm /\
  (exists tx, log run.2 = log w1 ++ tx /\ tx ∈ Editor.rolled_back_saves RefLib.people_edited) /\
  exists msg, screen run.2 = screen RefLib.warm ++ [StError ("Error saving changes: " +:+ msg)].
Proof.
  intros run w1.
  destruct (save_is_all_or_nothing RefLib.lib RefLib.people_edited RefLib.insert_breaks
              RefLib.warm) as (_ & Hfail & _).
  apply Hfail. unfold Editor.save_step_fails.
  right; right; right; left. vm_compute. discriminate.
Defined.

Lemma calm_save_goes_through t w :
  engine_cache w = Some RefLib.engine0 ->
  ~ Editor.save_step_fails RefLib.lib (RefLib.calm t) w.
Proof.
  intros He [(e & w' & H)|[H|[H|[H|H]]]]; try (now apply H).
  rewrite (get_database_engine_cached RefLib.lib _ _ _ He) in H. discriminate.
Defined.

(** Saving the grid with the two rows swapped. *)
Lemma save_round_trip_witness :
  public_test (database (Editor.save_changes RefLib.lib RefLib.people_swapped
                           (RefLib.calm 0) RefLib.warm).2)
    ≡ₚ public_test (database RefLib.warm) /\
  public_test (database (Editor.save_changes RefLib.lib RefLib.people_swapped
                           (RefLib.calm 0) RefLib.warm).2)
    = iterrows RefLib.people_swapped.
Proof.
  destruct (save_round_trip RefLib.lib RefLib.people_swapped (RefLib.calm 0) RefLib.warm)
    as (Hperm & _ & Hok).
  - cbn. apply perm_swap.
  - split; [exact Hperm|]. apply Hok. apply calm_save_goes_through. reflexivity.
Defined.

(** The query cache holds the table of the editor page and that of the
    map page. A save that goes through drops both entries, and the next
    load of either page queries the database; a save whose insert breaks
    keeps both, and either page is served the table cached before the
    save. *)
Lemma save_clears_query_cache_witness :
  load_data_cache RefRuns.in_use !! RefLib.test_sql = Some (RefLib.people_table, 0) /\
  load_data_cache RefRuns.in_use !! MapPage.table_sql = Some (RefLib.parcels_table, 0) /\
  (let run := Editor.save_changes RefLib.lib RefLib.people_edited (RefLib.calm 5)
                RefRuns.in_use in
   run.1 = Raise RerunException /\
   load_data_cache run.2 = ∅ /\
   forall sql o2,
     load_data RefLib.lib sql o2 run.2 = load_data_miss RefLib.lib sql o2 run.2 /\
     log (load_data RefLib.lib sql o2 run.2).2 = log run.2 ++ [EvQuery sql]) /\
  (let run := Editor.save_changes RefLib.lib RefLib.people_edited RefLib.insert_breaks
                RefRuns.in_use in
   run.1 = Ok tt /\
   load_data_cache run.2 = load_data_cache RefRuns.in_use /\
   load_data RefLib.lib RefLib.test_sql (RefLib.calm 5) run.2 = (Ok RefLib.people_table, run.2) /\
   load_data RefLib.lib MapPage.table_sql (RefLib.calm 5) run.2
     = (Ok RefLib.parcels_table, run.2)).
Proof.
  split; [reflexivity|]. split; [reflexivity|]. split.
  - apply (save_clears_query_cache RefLib.lib RefLib.people_edited (RefLib.calm 5)
             RefRuns.in_use).
    apply calm_save_goes_through. reflexivity.
  - destruct (save_clears_query_cache RefLib.lib RefLib.people_edited RefLib.insert_breaks
                RefRuns.in_use) as [_ Hkeep].
    destruct Hkeep as (Hok & Hcache & Hserved).
    { unfold Editor.save_step_fails. right; right; right; left. vm_compute. discriminate. }
    split; [exact Hok|]. split; [exact Hcache|]. split.
    + apply (Hserved RefLib.test_sql RefLib.people_table 0 (RefLib.calm 5)); [reflexivity|].
      cbn. lia.
    + apply (Hserved MapPage.table_sql RefLib.parcels_table 0 (RefLib.calm 5)); [reflexivity|].
      cbn. lia.
Defined.

(** The first parcel: its two shapes, each with the parcel's columns; and
    the table whose second parcel spoils the loop. *)
Lemma flatten_one_mapping_per_feature_witness :
  MapPage.flatten_row ([], []) [("id", PInt 1);
      ("geometry", RefLib.feature_collection [RefLib.feature "a"; RefLib.feature "b"])] =
    Ok ([RefLib.feature "a"; RefLib.feature "b"], [[("id", PInt 1)]; [("id", PInt 1)]]) /\
  MapPage.flatten RefLib.parcels_table =
    Ok ([RefLib.feature "a"; RefLib.feature "b"], [[("id", PInt 1)]; [("id", PInt 1)]]) /\
  MapPage.process_geometry_body RefLib.lib RefRuns.parcels_spoiled (RefLib.calm 0) RefLib.warm =
    (Ok [],
     set_screen RefLib.lib
       (screen RefLib.warm ++
        [StError ("Error processing geometry: " +:+ exn_str (TypeError "object is not iterable"))])
       RefLib.warm).
Proof.
  destruct (flatten_one_mapping_per_feature RefLib.lib) as (Hrow & _ & _ & _ & Hspec & Hfail).
  split; [|split].
  - exact (Hrow ([], [])
             [("id", PInt 1);
              ("geometry", RefLib.feature_collection [RefLib.feature "a"; RefLib.feature "b"])]
             [("type", PStr "FeatureCollection");
              ("features", PList [RefLib.feature "a"; RefLib.feature "b"])]
             [RefLib.feature "a"; RefLib.feature "b"] eq_refl eq_refl).
  - exact (Hspec RefLib.parcels_table
             [(RefLib.feature "a", [("id", PInt 1)]); (RefLib.feature "b", [("id", PInt 1)])]
             eq_refl).
  - exact (Hfail RefRuns.parcels_spoiled (TypeError "object is not iterable")
             (RefLib.calm 0) RefLib.warm eq_refl).
Defined.

(** C2 as stated fails: in this table the first row holds a feature
    collection with two features and the second a collection whose
    'features' is null. The loop raises on the second row, and
    [process_geometry] returns the empty frame with its error message:
    neither of the two features of the first row is emitted. *)
Lemma spoiled_table_emits_no_feature :
  let first := [("id", PInt 1);
                ("geometry", RefLib.feature_collection [RefLib.feature "a"; RefLib.feature "b"])] in
  let run := MapPage.process_geometry RefLib.lib RefRuns.parcels_spoiled
               (RefLib.calm 0) RefLib.warm in
  iterrows RefRuns.parcels_spoiled !! 0%nat = Some first /\
  row_get "geometry" first =
    Ok (RefLib.feature_collection [RefLib.feature "a"; RefLib.feature "b"]) /\
  (exists e, MapPage.flatten RefRuns.parcels_spoiled = Raise e) /\
  (exists g, run.1 = Ok g /\ gdf_empty RefLib.lib g = true /\
             gdf_geojson RefLib.lib g =
               inr (PDict [("type", PStr "FeatureCollection"); ("features", PList [])])) /\
  exists m, screen run.2 = [StError ("Error processing geometry: " +:+ m)].
Proof.
  cbv zeta. split; [reflexivity|]. split; [reflexivity|].
  split; [eexists; vm_compute; reflexivity|].
  split; [exists []; repeat split; reflexivity|].
  eexists. vm_compute. reflexivity.
Qed.

(** The row that holds its collection as a JSON string. *)
Lemma non_dict_geometry_is_skipped_witness :
  (forall acc, MapPage.flatten_row acc (zip ["id"; "geometry"] [PInt 2; RefLib.encoded]) = Ok acc) /\
  MapPage.flatten RefLib.parcels_encoded = MapPage.flatten RefLib.parcels_without_encoded /\
  MapPage.process_geometry_body RefLib.lib RefLib.parcels_encoded (RefLib.calm 0) RefLib.warm =
    MapPage.process_geometry_body RefLib.lib RefLib.parcels_without_encoded
      (RefLib.calm 0) RefLib.warm.
Proof.
  apply (non_dict_geometry_is_skipped RefLib.lib ["id"; "geometry"]
           [[PInt 1; RefLib.feature_collection [RefLib.feature "a"; RefLib.feature "b"]]]
           [PInt 2; RefLib.encoded] [] RefLib.encoded (RefLib.calm 0) RefLib.warm);
    reflexivity.
Defined.

(** The table whose two geometry cells are None and NaN, and the table
    without geometry column: no feature, no chart, no exception. *)
Lemma no_geometry_reports_no_data_witness :
  (let run := MapPage.page_with_table RefLib.lib RefLib.no_rows false RefLib.parcels_null
                (RefLib.calm 0) RefLib.warm in
   MapPage.flatten RefLib.parcels_null = Ok ([], []) /\
   run.1 = Ok tt /\
   charts RefLib.lib (screen run.2) = [] /\
   last (screen run.2) = Some (StError "Could not process geometry data.")) /\
  (let run := MapPage.page_with_table RefLib.lib RefLib.no_rows false RefRuns.no_geometry_column
                (RefLib.calm 0) RefLib.warm in
   MapPage.flatten RefRuns.no_geometry_column = Raise (KeyError "geometry") /\
   run.1 = Raise StopException /\
   screen run.2 = [StWarning "No data available or geometry column missing."] /\
   process_geometry_cache run.2 = []).
Proof.
  split.
  - intros run.
    destruct (no_geometry_reports_no_data RefLib.lib RefLib.no_rows RefLib.parcels_null
                (RefLib.calm 0) RefLib.warm reflib_laws) as [Hnull _].
    destruct Hnull as (Hflat & _ & Hcharts & Hpage).
    { cbn. repeat constructor; eexists; (split; [reflexivity|]); [left|right]; reflexivity. }
    assert (Hempty : df_empty RefLib.parcels_null = false) by reflexivity.
    rewrite Hempty in Hpage. destruct Hpage as (Hok & Hscreen).
    split; [exact Hflat|]. split; [exact Hok|]. split; [exact Hcharts|].
    subst run. rewrite Hscreen. rewrite !app_assoc. apply last_snoc.
  - intros run.
    destruct (no_geometry_reports_no_data RefLib.lib RefLib.no_rows RefRuns.no_geometry_column
                (RefLib.calm 0) RefLib.warm reflib_laws) as [_ Hcol].
    destruct (Hcol eq_refl) as (Hflat & _ & Hstop & Hscreen & Hcache).
    repeat split; assumption.
Defined.

(** The first parcel selected: base layer faded, highlight layer over the
    parcel's two shapes. *)
Lemma layers_follow_selection_witness :
  let run := MapPage.page_with_table RefLib.lib RefLib.first_row false RefLib.parcels_table
               (RefLib.calm 0) RefLib.warm in
  run.1 = Ok tt /\
  map (fun d => map get_fill_color (deck_layers d)) (charts RefLib.lib (screen run.2)) =
    [["[200, 30, 0, 100]"; "[255, 215, 0, 255]"]].
Proof.
  intros run.
  pose proof (layers_follow_selection RefLib.lib RefLib.first_row RefLib.parcels_table
                (RefLib.calm 0) RefLib.warm RefLib.two_shapes tt
                (PDict [("type", PStr "FeatureCollection");
                        ("features",
                         PList (map (fun r => PDict [("feature", r.1);
                                                     ("row_data", RefLib.cell r.2)])
                                    RefLib.two_shapes))])
                eq_refl eq_refl eq_refl eq_refl eq_refl) as H.
  vm_compute in H. destruct H as (_ & _ & Hok & Hcharts).
  split; [exact Hok|]. subst run. vm_compute. reflexivity.
Defined.

(** C3 as stated fails: with the second parcel selected, which has no
    geometry, the selection is not empty and the base layer is faded, yet
    the chart has that one layer only and no highlight layer. *)
Lemma highlight_layer_absent_without_features :
  let run := MapPage.page RefLib.lib RefLib.second_row false (RefLib.calm 0) RefLib.warm in
  MapPage.reported_rows RefLib.second_row = [1%nat] /\
  session_state run.2 !! "selected_rows" = Some [1%nat] /\
  run.1 = Ok tt /\
  map (fun d => map get_fill_color (deck_layers d)) (charts RefLib.lib (screen run.2)) =
    [["[200, 30, 0, 100]"]].
Proof.
  vm_compute. repeat split; reflexivity.
Qed.

(** C7: the reset of the selection is lost. The first parcel is
    selected, both caches are in use, and Refresh is pressed: the run
    empties the query cache and the processed-geometry cache, sets the
    stored selection to empty (line 80) and requests the rerun. The rerun
    fetches the table anew; the grid, whose state Streamlit keeps under its
    key, reports the first row again, lines 71-74 store that selection, and
    the page draws the faded base layer and the highlight layer for it.
    Nor does this depend on the input: whatever selection is stored when a
    run starts, the run ends and shows the same as when the stored
    selection is empty, so the assignment of line 80 reaches no
    rendering. *)
Theorem refresh_reset_is_overwritten_by_the_rerun :
  (let run1 := run_script RefLib.lib (MapPage.page RefLib.lib RefLib.first_row true)
                 (RefLib.calm 5) RefRuns.in_use in
   let run2 := run_script RefLib.lib (MapPage.page RefLib.lib RefLib.first_row false)
                 (RefLib.calm 6) run1.2 in
   session_state RefRuns.in_use !! "selected_rows" = Some [0%nat] /\
   load_data_cache RefRuns.in_use !! MapPage.table_sql = Some (RefLib.parcels_table, 0) /\
   process_geometry_cache RefRuns.in_use = [RefLib.parcels_table] /\
   run1.1 = RerunRequested /\
   load_data_cache run1.2 = ∅ /\
   process_geometry_cache run1.2 = [] /\
   session_state run1.2 !! "selected_rows" = Some [] /\
   log run1.2 = [] /\
   run2.1 = Completed /\
   log run2.2 = [EvQuery MapPage.table_sql] /\
   load_data_cache run2.2 !! MapPage.table_sql = Some (RefLib.parcels_table, 6) /\
   session_state run2.2 !! "selected_rows" = Some [0%nat] /\
   map (fun d => map get_fill_color (deck_layers d)) (charts RefLib.lib (screen run2.2)) =
     [["[200, 30, 0, 100]"; "[255, 215, 0, 255]"]]) /\
  (forall (L : Library) ev c table o (w : World (Point L)) rows,
     let run_on stored :=
       MapPage.page_with_table L ev c table o
         (set_session_state L (<["selected_rows" := stored]> (session_state w)) w) in
     (run_on rows).1 = (run_on []).1 /\
     screen (run_on rows).2 = screen (run_on []).2).
Proof.
  split.
  - vm_compute. repeat split; reflexivity.
  - intros L ev c table o w rows. cbv zeta.
    destruct (page_with_table_ignores_stored_selection L ev c table o w rows [])
      as (H1 & H2 & _).
    split; [exact H1|exact H2].
Qed.

(** * Further properties of the code *)

(** ** src/lib.py *)

Section EngineFacts.
Context (L : Library).
Implicit Types (o : Outside) (w : World (Point L)).

Lemma create_engine_with_settings o w user password host db :
  environ w !! "DB_USER" = Some user ->
  environ w !! "DB_PASSWORD" = Some password ->
  environ w !! "DB_HOST" = Some host ->
  environ w !! "DB_NAME" = Some db ->
  _create_database_engine L o w =
    match py_int L (Coverage.port_text L w) with
    | inl m => (Raise (ConnectionError ("Failed to create database engine: " +:+ m)), w)
    | inr n =>
        match connect_fault o with
        | Some m =>
            (Raise (ConnectionError ("Failed to create database engine: " +:+ m)),
             set_log L (log w ++ [EvUrlCreate user host n db; EvCreateEngine; EvConnect]) w)
        | None =>
            (Ok (mkEngine user password host n db),
             set_log L (log w ++ [EvUrlCreate user host n db; EvCreateEngine; EvConnect;
                                  EvExecute "SELECT 1"]) w)
        end
    end.
Proof.
  intros Hu Hp Hh Hn.
  unfold _create_database_engine, environ_get, environ_get_default, Coverage.port_text.
  unfold_script. rewrite Hu, Hp, Hh, Hn. cbv beta iota.
  destruct (py_int L _) as [m|n]; cbn; [reflexivity|].
  destruct (connect_fault o); cbn; f_equal; same_world.
Qed.

(** X1: with the four required settings present, the port text (DB_PORT,
    or "5432" when it is not set) read by int() as [n], and the database
    answering, the first call of [get_database_engine] returns the engine
    for exactly these values, keeps it in its cache, and makes four outside
    calls in this order: URL.create, create_engine, connect, SELECT 1. *)
Theorem first_engine_is_built_and_kept o w user password host db n :
  engine_cache w = None ->
  environ w !! "DB_USER" = Some user ->
  environ w !! "DB_PASSWORD" = Some password ->
  environ w !! "DB_HOST" = Some host ->
  environ w !! "DB_NAME" = Some db ->
  py_int L (default "5432" (environ w !! "DB_PORT")) = inr n ->
  connect_fault o = None ->
  let run := get_database_engine L o w in
  run.1 = Ok (mkEngine user password host n db) /\
  engine_cache run.2 = Some (mkEngine user password host n db) /\
  log run.2 = log w ++ [EvUrlCreate user host n db; EvCreateEngine; EvConnect;
                        EvExecute "SELECT 1"].
Proof.
  intros Hc Hu Hp Hh Hn Hint Hconn run. subst run.
  unfold get_database_engine. unfold_script. rewrite Hc.
  fold (_create_database_engine L).
  rewrite (create_engine_with_settings o w user password host db Hu Hp Hh Hn).
  unfold Coverage.port_text. rewrite Hint, Hconn. cbn. auto.
Qed.

(** X2: with the four required settings present, a port text that int()
    rejects makes engine creation raise ConnectionError "Failed to create
    database engine: ..." before any outside call (no URL is built); a
    database that refuses the connection makes it raise the same kind of
    error after URL.create, create_engine and connect, and the test query is
    never sent. In both cases [get_database_engine] keeps nothing in its
    cache, so the next call tries again. *)
Theorem engine_failures_are_connection_errors o w user password host db :
  engine_cache w = None ->
  environ w !! "DB_USER" = Some user ->
  environ w !! "DB_PASSWORD" = Some password ->
  environ w !! "DB_HOST" = Some host ->
  environ w !! "DB_NAME" = Some db ->
  let run := get_database_engine L o w in
  (forall m, py_int L (default "5432" (environ w !! "DB_PORT")) = inl m ->
     run = (Raise (ConnectionError ("Failed to create database engine: " +:+ m)), w)) /\
  (forall n m, py_int L (default "5432" (environ w !! "DB_PORT")) = inr n ->
     connect_fault o = Some m ->
     run.1 = Raise (ConnectionError ("Failed to create database engine: " +:+ m)) /\
     log run.2 = log w ++ [EvUrlCreate user host n db; EvCreateEngine; EvConnect] /\
     engine_cache run.2 = None).
Proof.
  intros Hc Hu Hp Hh Hn run. subst run.
  unfold get_database_engine. unfold_script. rewrite Hc.
  fold (_create_database_engine L).
  rewrite (create_engine_with_settings o w user password host db Hu Hp Hh Hn).
  unfold Coverage.port_text. split.
  - intros m Hint. now rewrite Hint.
  - intros n m Hint Hconn. rewrite Hint, Hconn. cbn. auto.
Qed.

Lemma create_engine_raises o w e w' :
  _create_database_engine L o w = (Raise e, w') ->
  (exists k, e = EnvironmentError ("Missing required environment variable: '" +:+ k +:+ "'")) \/
  (exists m, e = ConnectionError ("Failed to create database engine: " +:+ m)).
Proof.
  unfold _create_database_engine, environ_get, environ_get_default.
  unfold_script. intros H.
  repeat match type of H with
  | context [environ w !! ?k] =>
      destruct (environ w !! k); [|inversion H; left; eexists; reflexivity]
  | context [py_int L ?p] => destruct (py_int L p); simpl in H
  | context [connect_fault o] => destruct (connect_fault o); simpl in H
  end; inversion H; right; eexists; reflexivity.
Qed.

Lemma get_database_engine_raises o w e w' :
  get_database_engine L o w = (Raise e, w') ->
  (exists k, e = EnvironmentError ("Missing required environment variable: '" +:+ k +:+ "'")) \/
  (exists m, e = ConnectionError ("Failed to create database engine: " +:+ m)).
Proof.
  intros H. unfold get_database_engine in H. unfold_script.
  destruct (engine_cache w); [discriminate|].
  fold (_create_database_engine L) in H.
  destruct (_create_database_engine L o w) as [[e1|x] w1] eqn:Hc; [discriminate|].
  inversion H; subst. now apply (create_engine_raises o w e w').
Qed.

(** The outside calls of getting the engine only read. *)
Lemma get_database_engine_log o w r w' :
  get_database_engine L o w = (r, w') ->
  exists evs, log w' = log w ++ evs /\ forallb Coverage.is_read_event evs = true.
Proof.
  unfold get_database_engine. unfold_script.
  destruct (engine_cache w).
  { intros H; inversion H; subst. exists []. now rewrite app_nil_r. }
  fold (_create_database_engine L).
  assert (Hc : forall r1 w1, _create_database_engine L o w = (r1, w1) ->
            exists evs, log w1 = log w ++ evs /\ forallb Coverage.is_read_event evs = true).
  { intros r1 w1. unfold _create_database_engine, environ_get, environ_get_default.
    unfold_script. intros H.
    repeat match type of H with
    | context [environ w !! ?k] =>
        destruct (environ w !! k);
          [|inversion H; subst; exists []; now rewrite app_nil_r]
    | context [py_int L ?p] => destruct (py_int L p); simpl in H
    | context [connect_fault o] => destruct (connect_fault o); simpl in H
    end; inversion H; subst; cbn;
      first [ exists []; now rewrite app_nil_r
            | eexists; split; [rewrite <- ?app_assoc; reflexivity|reflexivity] ]. }
  destruct (_create_database_engine L o w) as [[e1|x] w1] eqn:Hrun;
    destruct (Hc _ _ eq_refl) as (evs & Hl & Hr);
    intros H; inversion H; subst; cbn; eauto.
Qed.

(** X3: whatever the environment and the outside, engine creation raises
    nothing but what its docstring lists: an EnvironmentError "Missing
    required environment variable: ..." or a ConnectionError "Failed to
    create database engine: ...". The cached [get_database_engine] raises
    nothing else either. *)
Theorem engine_raises_only_documented_errors o w e w' :
  _create_database_engine L o w = (Raise e, w') \/ get_database_engine L o w = (Raise e, w') ->
  (exists k, e = EnvironmentError ("Missing required environment variable: '" +:+ k +:+ "'")) \/
  (exists m, e = ConnectionError ("Failed to create database engine: " +:+ m)).
Proof.
  intros [H|H]; [exact (create_engine_raises o w e w' H)|exact (get_database_engine_raises o w e w' H)].
Qed.

(** X4: once [get_database_engine] has returned an engine, every later
    call returns that engine and makes no outside call, whatever the
    environment has become since (settings changed or removed) and whether
    or not the database still answers. *)
Theorem engine_is_made_once o1 w e w1 :
  get_database_engine L o1 w = (Ok e, w1) ->
  forall o2 env,
    get_database_engine L o2 (Coverage.set_environ L env w1) =
      (Ok e, Coverage.set_environ L env w1).
Proof.
  intros Hrun o2 env.
  pose proof (get_database_engine_frame L o1 w _ _ Hrun) as (_ & _ & _ & _ & _ & _ & _ & He).
  apply get_database_engine_cached. cbn. now apply He.
Qed.

End EngineFacts.

Section QueryFacts.
Context (L : Library).
Implicit Types (o : Outside) (w : World (Point L)).

(** What the body under [load_data] does to the world. *)
Lemma load_data_body_effect o w sql r w' :
  load_data_body L sql o w = (r, w') ->
  load_data_cache w' = load_data_cache w /\
  (exists evs, log w' = log w ++ evs /\ forallb Coverage.is_read_event evs = true) /\
  (forall e, r = Raise e ->
     (exists k, e = EnvironmentError ("Missing required environment variable: '" +:+ k +:+ "'")) \/
     (exists m, e = ConnectionError ("Failed to create database engine: " +:+ m)) \/
     (exists m, e = DatabaseError m /\ query_fault o = Some m) \/
     (exists m, e = LibraryError m /\ query_fault o = None /\
                pd_read_sql L sql (database w) = inl m)).
Proof.
  unfold load_data_body. unfold_script.
  destruct (get_database_engine L o w) as [[e0|x] w1] eqn:Hg.
  - pose proof (get_database_engine_frame L o w _ _ Hg) as (Hc & Hdb & _).
    destruct (get_database_engine_log L o w _ _ Hg) as (evs & Hl & Hr).
    cbn. destruct (query_fault o) as [m|] eqn:Hq; cbn.
    + intros H; inversion H; subst; cbn. split; [exact Hc|]. split.
      * exists (evs ++ [EvQuery sql]). rewrite Hl, app_assoc. split; [reflexivity|].
        rewrite forallb_app, Hr. reflexivity.
      * intros e He; inversion He; subst. right; right; left. eauto.
    + destruct (pd_read_sql L sql (database w1)) as [m|df] eqn:Hread; cbn;
        intros H; inversion H; subst; cbn; (split; [exact Hc|]); split;
        try (exists (evs ++ [EvQuery sql]); rewrite Hl, app_assoc; split; [reflexivity|];
             rewrite forallb_app, Hr; reflexivity).
      * intros e He; inversion He; subst. right; right; right. rewrite <- Hdb. eauto.
      * intros e He; inversion He.
  - pose proof (get_database_engine_frame L o w _ _ Hg) as (Hc & _).
    destruct (get_database_engine_log L o w _ _ Hg) as (evs & Hl & Hr).
    intros H; inversion H; subst. split; [exact Hc|]. split; [eauto|].
    intros e He; inversion He; subst.
    destruct (get_database_engine_raises L o w e w' Hg) as [?|?]; auto.
Qed.

Lemma load_data_cases o w sql :
  load_data L sql o w = load_data_miss L sql o w \/
  exists df created, load_data_cache w !! sql = Some (df, created) /\
                     now o < created + 600 /\ load_data L sql o w = (Ok df, w).
Proof.
  destruct (load_data_cache w !! sql) as [[df c]|] eqn:Hc.
  - destruct (Z.ltb_spec (now o) (c + ttl)) as [Hlt|Hge].
    + right. exists df, c. unfold ttl in Hlt. split; [reflexivity|]. split; [exact Hlt|].
      now apply (load_data_hit L o w sql df c).
    + left. now apply (load_data_expired L o w sql df c).
  - left. now apply load_data_absent.
Qed.

(** X5: a [load_data] call that raises stores nothing: the query cache is
    what it was. What it raises is the engine's EnvironmentError or
    ConnectionError, the database's error for the query, or pandas' error
    reading the result; nothing is caught or renamed on the way. *)
Theorem failed_query_is_not_cached o w sql e w' :
  load_data L sql o w = (Raise e, w') ->
  load_data_cache w' = load_data_cache w /\
  ((exists k, e = EnvironmentError ("Missing required environment variable: '" +:+ k +:+ "'")) \/
   (exists m, e = ConnectionError ("Failed to create database engine: " +:+ m)) \/
   (exists m, e = DatabaseError m /\ query_fault o = Some m) \/
   (exists m, e = LibraryError m /\ query_fault o = None /\
              pd_read_sql L sql (database w) = inl m)).
Proof.
  intros Hrun.
  destruct (load_data_cases o w sql) as [Hm|(df & c & _ & _ & Hhit)];
    [|rewrite Hhit in Hrun; discriminate].
  rewrite Hm in Hrun. unfold load_data_miss in Hrun. unfold_script.
  destruct (load_data_body L sql o w) as [[df|x] w1] eqn:Hb; [discriminate|].
  inversion Hrun; subst.
  destruct (load_data_body_effect o w sql _ _ Hb) as (Hc & _ & He).
  split; [exact Hc|]. now apply He.
Qed.

Lemma load_data_effect o w sql r w' :
  load_data L sql o w = (r, w') ->
  (forall sql', sql' <> sql -> load_data_cache w' !! sql' = load_data_cache w !! sql') /\
  database w' = database w /\ screen w' = screen w /\
  session_state w' = session_state w /\
  process_geometry_cache w' = process_geometry_cache w /\
  exists evs, log w' = log w ++ evs /\ forallb Coverage.is_read_event evs = true.
Proof.
  intros Hrun.
  destruct (load_data_cases o w sql) as [Hm|(df & c & _ & _ & Hhit)].
  2:{ rewrite Hhit in Hrun. inversion Hrun; subst.
      repeat split; try reflexivity. exists []. now rewrite app_nil_r. }
  rewrite Hm in Hrun. unfold load_data_miss in Hrun. unfold_script.
  destruct (load_data_body L sql o w) as [[df|x] w1] eqn:Hb;
    destruct (load_data_body_effect o w sql _ _ Hb) as (Hc & Hlog & _);
    destruct (load_data_body_frame L o w sql _ _ Hb) as (_ & Hdb & Hs & Hss & _ & Hpg & _);
    inversion Hrun; subst; cbn.
  - split; [intros sql' Hne; rewrite Hc; now apply lookup_insert_ne|].
    repeat split; assumption.
  - split; [intros sql' Hne; now rewrite Hc|]. repeat split; assumption.
Qed.


(** X6: a [load_data] call for one SQL text, whether it is answered from
    the cache, executed, or fails, leaves the cache entries of every other
    SQL text as they were; it changes neither the database nor the screen,
    the stored selection or the processed-geometry cache, and the outside
    calls it adds are reads only (engine set-up and the query). *)
Theorem query_touches_only_its_own_entry o w sql r w' :
  load_data L sql o w = (r, w') ->
  (forall sql', sql' <> sql -> load_data_cache w' !! sql' = load_data_cache w !! sql') /\
  database w' = database w /\ screen w' = screen w /\
  session_state w' = session_state w /\
  process_geometry_cache w' = process_geometry_cache w /\
  exists evs, log w' = log w ++ evs /\ forallb Coverage.is_read_event evs = true.
Proof. exact (load_data_effect o w sql r w'). Qed.

(** X7: an entry is served only while the clock is below its creation
    time plus 600; from that instant on (also exactly at it) the call runs
    the query again and, when it succeeds, returns the table the database
    gives now and replaces the entry by it, stamped with the current
    clock. *)
Theorem expired_entry_is_refetched o w sql old created e df :
  load_data_cache w !! sql = Some (old, created) ->
  created + 600 <= now o ->
  engine_cache w = Some e ->
  query_fault o = None ->
  pd_read_sql L sql (database w) = inr df ->
  let run := load_data L sql o w in
  run.1 = Ok df /\
  load_data_cache run.2 = <[sql := (df, now o)]> (load_data_cache w) /\
  log run.2 = log w ++ [EvQuery sql].
Proof.
  intros Hc Hexp He Hq Hread run. subst run.
  rewrite (load_data_expired L o w sql old created Hc) by (unfold ttl; lia).
  unfold load_data_miss. unfold_script.
  rewrite (load_data_body_engine_cached L o w sql e He), Hq, Hread. cbn. auto.
Qed.

End QueryFacts.

(** ** src/pages/single_dataframe.py and src/pages/single_editor.py *)

Section TablePagesFacts.
Context (L : Library).
Implicit Types (o : Outside) (w : World (Point L)).

Lemma load_data_ok_cached o w sql df w1 :
  load_data L sql o w = (Ok df, w1) ->
  exists created, load_data_cache w1 !! sql = Some (df, created).
Proof.
  intros Hrun.
  destruct (load_data_cases L o w sql) as [Hm|(df0 & c & Hc & _ & Hhit)].
  - rewrite Hm in Hrun. apply load_data_miss_ok in Hrun as [Hc _].
    exists (now o). rewrite Hc. apply lookup_insert_eq.
  - rewrite Hhit in Hrun. inversion Hrun; subst. eauto.
Qed.

(** X8: on the table page, when the table loads, a click on Refresh
    empties the whole query cache (the entries of every page, the map
    page's too) and requests a rerun, after the title, the table and the
    button were drawn; it leaves the database, the stored selection and the
    processed-geometry cache as they were. Without the click the page
    completes and the cache keeps the entry of the table. *)
Theorem table_page_refresh_clears_every_entry o w table w1 :
  load_data L "select * from public.test" o
    (set_screen L (screen w ++ [StTitle "Single DataFrame"]) w) = (Ok table, w1) ->
  let clicked := SingleDataframe.page L true o w in
  let idle := SingleDataframe.page L false o w in
  clicked.1 = Raise RerunException /\
  load_data_cache clicked.2 = ∅ /\
  screen clicked.2 =
    screen w ++ [StTitle "Single DataFrame"; StDataframe table; StButton "Refresh data"] /\
  database clicked.2 = database w /\
  session_state clicked.2 = session_state w /\
  process_geometry_cache clicked.2 = process_geometry_cache w /\
  idle.1 = Ok tt /\
  (exists created, load_data_cache idle.2 !! "select * from public.test" = Some (table, created)) /\
  screen idle.2 = screen clicked.2.
Proof.
  intros Hload clicked idle. subst clicked idle.
  destruct (load_data_effect L o _ _ _ _ Hload) as (_ & Hdb & Hs & Hss & Hpg & _).
  destruct (load_data_ok_cached o _ _ _ _ Hload) as (created & Hc).
  unfold SingleDataframe.page, load_data_clear. unfold_script. rewrite Hload. cbn.
  cbn in Hdb, Hs, Hss, Hpg. rewrite Hs, Hdb, Hss, Hpg, <- !app_assoc. cbn.
  repeat split; try reflexivity. eauto.
Qed.

Lemma editor_page_run edit c o w :
  Editor.page L edit c o w =
    match load_data L "select * from public.test" o
            (set_screen L (screen w ++ [StTitle "Single Editor"]) w) with
    | (Ok table, w1) =>
        let w2 := set_screen L (screen w1 ++ [StDataEditor table; StButton "Save changes"]) w1 in
        if c then Editor.save_changes L (edit table) o w2 else (Ok tt, w2)
    | (Raise e, w1) => (Raise e, w1)
    end.
Proof.
  unfold Editor.page. unfold_script.
  destruct (load_data L _ o _) as [[table|e] w1]; [|reflexivity]. cbv beta iota zeta.
  assert (Heq : set_screen L
                  (screen (set_screen L (screen w1 ++ [StDataEditor table]) w1) ++
                   [StButton "Save changes"])
                  (set_screen L (screen w1 ++ [StDataEditor table]) w1)
                = set_screen L (screen w1 ++ [StDataEditor table; StButton "Save changes"]) w1)
    by same_world.
  rewrite Heq. destruct c; reflexivity.
Qed.

(** A save that ends in the rerun went through every step. *)
Lemma save_changes_rerun_inv data o w w' :
  Editor.save_changes L data o w = (Raise RerunException, w') ->
  ~ Editor.save_step_fails L o w.
Proof.
  intros Hrun Hf.
  destruct (save_changes_database L data o w) as [_ _].
  destruct (get_database_engine L o w) as [[e|x] w1] eqn:Hg.
  - rewrite (save_changes_engine_ok L data o w e w1 Hg) in Hrun.
    destruct Hf as [(x & w2 & Hx)|Hf]; [congruence|].
    destruct (connect_fault o); [discriminate|].
    destruct (delete_fault o); [discriminate|].
    destruct (insert_fault o) as [[k m]|]; [discriminate|].
    destruct (commit_fault o); [discriminate|].
    destruct Hf as [?|[?|[?|?]]]; congruence.
  - rewrite (save_changes_engine_fails L data o w x w1 Hg) in Hrun. discriminate.
Qed.

Lemma save_changes_success data o w :
  ~ Editor.save_step_fails L o w ->
  exists e w1,
    get_database_engine L o w = (Ok e, w1) /\
    Editor.save_changes L data o w =
      (Raise RerunException,
       set_screen L (screen w1 ++ [StSuccess "Changes saved successfully!"])
         (set_load_data_cache L ∅
           (set_log L (log w1 ++ Editor.committed_save data)
             (set_transaction L None
               (set_database L (Editor.set_public_test (iterrows data) (database w1)) w1))))).
Proof.
  intros Hn. destruct (not_fails_calm L o w Hn) as ((e & w1 & Hg) & Hc & Hd & Hi & Hm).
  exists e, w1. split; [exact Hg|].
  rewrite (save_changes_engine_ok L data o w e w1 Hg), Hc, Hd, Hi, Hm. reflexivity.
Qed.

(** X9: whatever the grid holds and whatever the outside does, the save
    handler changes neither the other table (public.test_geom), nor the
    stored selection of the map page, nor the processed-geometry cache; of
    the database it can only replace the rows of public.test. *)
Theorem save_touches_only_public_test data o w :
  let run := Editor.save_changes L data o w in
  public_test_geom (database run.2) = public_test_geom (database w) /\
  session_state run.2 = session_state w /\
  process_geometry_cache run.2 = process_geometry_cache w /\
  (transaction run.2 = None \/ transaction run.2 = transaction w).
Proof.
  intros run. subst run.
  destruct (get_database_engine L o w) as [[e|x] w1] eqn:Hg;
    pose proof (get_database_engine_frame L o w _ _ Hg) as (_ & Hdb & _ & Hss & Htx & Hpg & _).
  - rewrite (save_changes_engine_ok L data o w e w1 Hg).
    destruct (connect_fault o); [cbn; rewrite Hdb, Hss, Hpg, Htx; auto|].
    destruct (delete_fault o); [cbn; rewrite Hdb, Hss, Hpg; auto|].
    destruct (insert_fault o) as [[k m]|]; [cbn; rewrite Hdb, Hss, Hpg; auto|].
    destruct (commit_fault o); cbn; rewrite Hdb, Hss, Hpg; auto.
  - rewrite (save_changes_engine_fails L data o w x w1 Hg). cbn.
    rewrite Hdb, Hss, Hpg, Htx. auto.
Qed.

(** X10: the editor page saves what its grid shows, and the grid is made
    from the cached table. When the query cache still serves an entry for
    the table and no step of the save fails, a click on Save replaces the
    rows of public.test by the edited cached table without reading the
    database first (the log shows the transaction and no query): rows that
    reached the database after the entry was cached are gone. The cache is
    then emptied and a rerun requested. *)
Theorem editor_saves_the_cached_grid edit o w table created e :
  load_data_cache w !! "select * from public.test" = Some (table, created) ->
  now o < created + 600 ->
  engine_cache w = Some e ->
  connect_fault o = None -> delete_fault o = None ->
  insert_fault o = None -> commit_fault o = None ->
  let run := Editor.page L edit true o w in
  run.1 = Raise RerunException /\
  public_test (database run.2) = iterrows (edit table) /\
  log run.2 = log w ++ Editor.committed_save (edit table) /\
  load_data_cache run.2 = ∅.
Proof.
  intros Hc Hlt He Hcf Hdf Hif Hmf run. subst run.
  rewrite editor_page_run.
  assert (Hlt' : now o < created + ttl) by (unfold ttl; lia).
  rewrite (load_data_hit L o (set_screen L (screen w ++ [StTitle "Single Editor"]) w)
             _ table created Hc Hlt').
  cbv zeta.
  match goal with |- context [Editor.save_changes L ?d o ?w2] =>
    assert (Hg : get_database_engine L o w2 = (Ok e, w2))
      by (apply get_database_engine_cached; exact He);
    rewrite (save_changes_engine_ok L d o w2 e w2 Hg)
  end.
  rewrite Hcf, Hdf, Hif, Hmf. cbn. auto.
Qed.

(** X11: after a save that went through (it ended in the rerun), the next
    run of the editor page does not use the cache: it sends the query to
    the database, which now holds the rows of the saved grid in
    public.test, and the grid it draws is the table read from that
    database, kept in the cache with the clock of that run. *)
Theorem saved_rows_are_read_back data o w w' edit o2 table2 :
  Editor.save_changes L data o w = (Raise RerunException, w') ->
  query_fault o2 = None ->
  pd_read_sql L "select * from public.test"
    (Editor.set_public_test (iterrows data) (database w)) = inr table2 ->
  let run := Editor.page L edit false o2 w' in
  public_test (database w') = iterrows data /\
  run.1 = Ok tt /\
  log run.2 = log w' ++ [EvQuery "select * from public.test"] /\
  screen run.2 =
    screen w' ++ [StTitle "Single Editor"; StDataEditor table2; StButton "Save changes"] /\
  load_data_cache run.2 !! "select * from public.test" = Some (table2, now o2).
Proof.
  intros Hsave Hq Hread run. subst run.
  pose proof (save_changes_rerun_inv data o w w' Hsave) as Hn.
  destruct (save_changes_success data o w Hn) as (e & w1 & Hg & Hrun).
  pose proof (get_database_engine_frame L o w _ _ Hg) as (_ & Hdb & _ & _ & _ & _ & _ & He).
  specialize (He e eq_refl).
  rewrite Hrun in Hsave. inversion Hsave; subst w'. clear Hsave Hrun.
  split; [cbn; reflexivity|].
  rewrite editor_page_run.
  rewrite load_data_absent by (cbn; apply lookup_empty).
  unfold load_data_miss. unfold_script.
  rewrite (load_data_body_engine_cached L o2 _ _ e) by (cbn; exact He).
  rewrite Hq. cbn. rewrite Hdb, Hread. cbn.
  rewrite lookup_insert_eq, <- !app_assoc. cbn. auto.
Qed.

End TablePagesFacts.

(** ** src/pages/dataframe_map.py: [process_geometry] *)

Section MoreGeometryFacts.
Import MapPage.
Context (L : Library).
Implicit Types (o : Outside) (w : World (Point L)).

Lemma flatten_rows_ok_inv rows : forall acc res,
  flatten_rows acc rows = Ok res ->
  acc.1 ⊆ res.1 /\ acc.2 ⊆ res.2 /\
  Forall (fun row => exists own, flatten_row ([], []) row = Ok own /\
                                 own.1 ⊆ res.1 /\ own.2 ⊆ res.2) rows.
Proof.
  induction rows as [|row rows IH]; intros acc res; simpl.
  - intros H; inversion H; subst. repeat split; try done.
  - unfold mbind, result_mbind, result_bind. rewrite flatten_row_alone.
    destruct (flatten_row ([], []) row) as [own|e] eqn:Hown; [|discriminate].
    intros H. apply IH in H as (H1 & H2 & Hall). cbn in H1, H2.
    split; [intros x Hx; apply H1, elem_of_app; auto|].
    split; [intros x Hx; apply H2, elem_of_app; auto|].
    constructor; [|exact Hall].
    exists own. split; [exact Hown|].
    split; intros x Hx; [apply H1|apply H2]; apply elem_of_app; auto.
Qed.

Lemma flatten_rows_ok_intro (S1 : list pyval) (S2 : list Row) rows : forall acc,
  acc.1 ⊆ S1 -> acc.2 ⊆ S2 ->
  Forall (fun row => exists own, flatten_row ([], []) row = Ok own /\
                                 own.1 ⊆ S1 /\ own.2 ⊆ S2) rows ->
  exists res, flatten_rows acc rows = Ok res /\ res.1 ⊆ S1 /\ res.2 ⊆ S2.
Proof.
  induction rows as [|row rows IH]; intros acc H1 H2 Hall; simpl.
  - eauto.
  - inversion Hall as [|? ? (own & Hown & Ho1 & Ho2) Hrest]; subst.
    unfold mbind, result_mbind, result_bind. rewrite flatten_row_alone, Hown.
    apply IH; [| |exact Hrest]; cbn; intros x Hx;
      apply elem_of_app in Hx as [Hx|Hx]; auto.
Qed.

(** X12: [process_geometry] never raises, whatever the table holds. When
    the body of its try goes through it returns that frame and shows
    nothing; when anything in it raises (the loop, geopandas, json) it
    shows exactly one message, "Error processing geometry: ..." with the
    text of the exception, and returns the frame [gpd.GeoDataFrame()]. It
    writes nothing to the database, makes no outside call and leaves the
    query cache and the stored selection alone. *)
Theorem process_geometry_degrades_to_empty_frame data o w :
  let run := process_geometry L data o w in
  ((exists gdf, try_body L data = Ok gdf /\ run.1 = Ok gdf /\ screen run.2 = screen w) \/
   (exists e, try_body L data = Raise e /\ run.1 = Ok (gpd_GeoDataFrame L) /\
              screen run.2 = screen w ++ [StError ("Error processing geometry: " +:+ exn_str e)])) /\
  database run.2 = database w /\ log run.2 = log w /\
  load_data_cache run.2 = load_data_cache w /\ session_state run.2 = session_state w.
Proof.
  intros run. subst run. rewrite process_geometry_run, process_geometry_body_run.
  destruct (try_body L data) as [gdf|e]; cbn.
  - split; [left; eauto|auto].
  - split; [right; eauto|auto].
Qed.

(** X13: called on a table that has rows but no geometry column,
    [process_geometry] fails at the first row with KeyError 'geometry': it
    shows "Error processing geometry: 'geometry'" and returns the empty
    frame. On a table without rows the loop gathers nothing and does not
    raise. *)
Theorem missing_geometry_column_is_a_key_error cols vs rest o w :
  has_column "geometry" (mkDataFrame cols (vs :: rest)) = false ->
  flatten (mkDataFrame cols (vs :: rest)) = Raise (KeyError "geometry") /\
  process_geometry_body L (mkDataFrame cols (vs :: rest)) o w =
    (Ok (gpd_GeoDataFrame L),
     set_screen L (screen w ++ [StError "Error processing geometry: 'geometry'"]) w) /\
  flatten (mkDataFrame cols []) = Ok ([], []).
Proof.
  intros Hcol. unfold has_column in Hcol. cbn in Hcol.
  assert (Hflat : flatten (mkDataFrame cols (vs :: rest)) = Raise (KeyError "geometry")).
  { unfold flatten, iterrows. cbn. unfold flatten_row, row_get.
    now rewrite (assoc_zip_absent "geometry" cols vs Hcol). }
  split; [exact Hflat|]. split; [|reflexivity].
  rewrite process_geometry_body_run. unfold try_body. now rewrite Hflat.
Qed.

(** X14: one row spoils the table. If some row holds a nonempty dict whose
    'features' value cannot be iterated (None, a number, a boolean), the
    loop raises, the features gathered from all other rows are dropped,
    and [process_geometry] returns the empty frame with its error message,
    whatever the other rows hold. *)
Theorem one_bad_collection_spoils_the_table data row fc e0 o w :
  row ∈ iterrows data ->
  row_get "geometry" row = Ok (PDict fc) ->
  fc <> [] ->
  py_iter (dict_get fc "features" (PList [])) = Raise e0 ->
  exists e,
    flatten data = Raise e /\
    process_geometry_body L data o w =
      (Ok (gpd_GeoDataFrame L),
       set_screen L (screen w ++ [StError ("Error processing geometry: " +:+ exn_str e)]) w).
Proof.
  intros Hin Hg Hne Hiter.
  assert (Hrow : forall acc, flatten_row acc row = Raise e0).
  { intros acc. unfold flatten_row. rewrite Hg.
    unfold mbind, result_mbind, result_bind. cbn.
    destruct fc as [|kv fc']; [done|]. cbn. now rewrite Hiter. }
  assert (Hflat : exists e, flatten data = Raise e).
  { apply list_elem_of_split in Hin as (pre & post & Heq).
    unfold flatten. rewrite Heq, flatten_rows_app.
    destruct (flatten_rows ([], []) pre) as [acc|e]; [|eauto].
    cbn. unfold mbind, result_mbind, result_bind. rewrite Hrow. eauto. }
  destruct Hflat as (e & Hflat). exists e. split; [exact Hflat|].
  rewrite process_geometry_body_run. unfold try_body. now rewrite Hflat.
Qed.

(** X15: on a table whose rows all have a geometry cell, the loop gathers
    exactly what it gathers from the rows that pass its two tests (the
    geometry is truthy and is a dict), in the same order: null cells,
    empty dicts, strings, numbers and lists in the geometry column add
    nothing and raise nothing. *)
Theorem flatten_reads_only_collections data :
  Forall (fun row => is_Some (assoc "geometry" row)) (iterrows data) ->
  flatten data = flatten_rows ([], []) (filter Coverage.holds_collection (iterrows data)).
Proof.
  unfold flatten. generalize (iterrows data) as rows. intros rows.
  generalize (([], []) : list pyval * list Row) as acc.
  induction rows as [|row rows IH]; intros acc Hall; [reflexivity|].
  inversion Hall as [|? ? [v Hv] Hrest]; subst.
  assert (Hget : row_get "geometry" row = Ok v) by (unfold row_get; now rewrite Hv).
  assert (Hh : Coverage.holds_collection row = truthy v && isinstance_dict v)
    by (unfold Coverage.holds_collection; now rewrite Hget).
  destruct (Coverage.holds_collection row) eqn:Htest.
  - rewrite filter_cons_True by (rewrite Htest; exact I). cbn.
    unfold mbind, result_mbind, result_bind.
    destruct (flatten_row acc row); [now apply IH|reflexivity].
  - rewrite filter_cons_False by (rewrite Htest; exact id). cbn.
    unfold mbind, result_mbind, result_bind.
    rewrite (flatten_row_skip acc row v Hget)
      by (symmetry in Hh; apply andb_false_iff in Hh; exact Hh).
    now apply IH.
Qed.

(** X16: if the loop goes through on the whole table, it goes through on
    every selection of its rows that [iloc] accepts, and every feature and
    every attribute mapping it gathers from the selection is among those
    gathered from the whole table: the highlight layer never draws from
    anything the base layer did not. *)
Theorem selection_flattens_to_features_of_the_table table sel st fs rds :
  flatten table = Ok (fs, rds) ->
  iloc table sel = Ok st ->
  exists fs' rds',
    flatten st = Ok (fs', rds') /\ fs' ⊆ fs /\ rds' ⊆ rds.
Proof.
  intros Hflat Hiloc. unfold flatten in *.
  apply flatten_rows_ok_inv in Hflat as (_ & _ & Hall). cbn in Hall.
  destruct (iloc_spec table sel st Hiloc) as [Hcols Hrows].
  assert (Hsel : Forall (fun row => exists own, flatten_row ([], []) row = Ok own /\
                                     own.1 ⊆ fs /\ own.2 ⊆ rds) (iterrows st)).
  { unfold iterrows. rewrite Hcols. apply Forall_forall. intros row Hin.
    apply list_elem_of_fmap in Hin as (vs & -> & Hvs).
    rewrite Forall_forall in Hall. apply Hall.
    unfold iterrows. apply list_elem_of_fmap. exists vs. split; [reflexivity|].
    clear - Hrows Hvs. induction Hrows as [|i r sel' rs Hi _ IH]; [inversion Hvs|].
    apply elem_of_cons in Hvs as [-> | Hvs]; [|now apply IH].
    eapply list_elem_of_lookup_2, Hi. }
  destruct (flatten_rows_ok_intro fs rds (iterrows st) ([], [])) as ([fs' rds'] & Hres & H1 & H2);
    [intros x Hx; inversion Hx|intros x Hx; inversion Hx|exact Hsel|].
  exists fs', rds'. auto.
Qed.

End MoreGeometryFacts.

(** ** src/pages/dataframe_map.py: the page *)

Section MorePageFacts.
Import MapPage.
Context (L : Library).
Implicit Types (o : Outside) (w : World (Point L)).

Lemma take_rows_in_range vs idx :
  Forall (fun i => (i < length vs)%nat) idx ->
  exists rs, take_rows vs idx = Ok rs /\ length rs = length idx.
Proof.
  induction idx as [|i idx IH]; intros Hall; simpl; [eauto|].
  inversion Hall as [|? ? Hi Hrest]; subst.
  destruct (lookup_lt_is_Some_2 vs i Hi) as [r Hr]. rewrite Hr.
  destruct (IH Hrest) as (rs & Hrs & Hlen). rewrite Hrs. cbn.
  exists (r :: rs). cbn. auto.
Qed.

Lemma take_rows_out_of_range vs idx :
  Exists (fun i => (length vs <= i)%nat) idx ->
  take_rows vs idx = Raise (IndexError "positional indexers are out-of-bounds").
Proof.
  induction idx as [|i idx IH]; intros Hex; [inversion Hex|]. simpl.
  destruct (vs !! i) as [r|] eqn:Hr; [|reflexivity].
  inversion Hex as [? ? Hi|? ? Hrest]; subst.
  - apply lookup_lt_Some in Hr. lia.
  - rewrite (IH Hrest). reflexivity.
Qed.

(** X17: [iloc] with a list of positions succeeds exactly when every
    position is below the number of rows; it then keeps the columns and
    yields one row per position, in the order of the list, each being the
    table's row at that position. If any position is out of range (so for
    every nonempty list on an empty table) it raises IndexError; on the
    page this happens outside any try, so building the layers ends in that
    exception and nothing is drawn by it. *)
Theorem iloc_is_bounds_checked table sel :
  (Forall (fun i => (i < length (values table))%nat) sel ->
   exists st, iloc table sel = Ok st /\ columns st = columns table /\
              length (values st) = length sel /\
              Forall2 (fun i r => values table !! i = Some r) sel (values st)) /\
  (Exists (fun i => (length (values table) <= i)%nat) sel ->
   iloc table sel = Raise (IndexError "positional indexers are out-of-bounds") /\
   forall gdf g o w r rest,
     sel = r :: rest ->
     session_state w !! "selected_rows" = Some sel ->
     gdf_geojson L gdf = inr g ->
     build_layers L table gdf o w =
       (Raise (IndexError "positional indexers are out-of-bounds"), w)).
Proof.
  split.
  - intros Hall. destruct (take_rows_in_range (values table) sel Hall) as (rs & Hrs & Hlen).
    exists (mkDataFrame (columns table) rs).
    assert (Hi : iloc table sel = Ok (mkDataFrame (columns table) rs))
      by (unfold iloc; now rewrite Hrs).
    split; [exact Hi|]. split; [reflexivity|]. split; [exact Hlen|].
    now destruct (iloc_spec table sel _ Hi).
  - intros Hex.
    assert (Hi : iloc table sel = Raise (IndexError "positional indexers are out-of-bounds"))
      by (unfold iloc; now rewrite (take_rows_out_of_range _ _ Hex)).
    split; [exact Hi|]. intros gdf g o w r rest -> Hsel Hg.
    rewrite (build_layers_run L table gdf o w _ g Hsel Hg). now rewrite Hi.
Qed.

(** What building the layers does, whatever the inputs. *)
Lemma build_layers_effect table gdf o w :
  let run := build_layers L table gdf o w in
  log run.2 = log w /\ database run.2 = database w /\
  load_data_cache run.2 = load_data_cache w /\
  session_state run.2 = session_state w /\
  charts L (screen run.2) = charts L (screen w) /\
  (forall layers, run.1 = Ok layers ->
     exists g sel,
       session_state w !! "selected_rows" = Some sel /\
       gdf_geojson L gdf = inr g /\
       (layers = [base_layer g (base_alpha sel)] \/
        exists sg, sel <> [] /\ layers = [base_layer g 100; highlight_layer sg])).
Proof.
  intros run. subst run.
  destruct (session_state w !! "selected_rows") as [sel|] eqn:Hsel.
  2:{ unfold build_layers, get_selected_rows. unfold_script. rewrite Hsel. cbn.
      repeat split; try reflexivity. intros layers H; inversion H. }
  destruct (gdf_geojson L gdf) as [m|g] eqn:Hg.
  { unfold build_layers, get_selected_rows. unfold_script. rewrite Hsel, Hg. cbn.
    repeat split; try reflexivity. intros layers H; inversion H. }
  rewrite (build_layers_run L table gdf o w sel g Hsel Hg).
  destruct sel as [|r sel].
  { cbn. repeat split; try reflexivity. intros layers H; inversion H; subst. eauto 6. }
  destruct (iloc table (r :: sel)) as [st|e].
  2:{ cbn. repeat split; try reflexivity. intros layers H; inversion H. }
  cbv zeta.
  destruct (process_geometry_effect L st o w) as (Hs & Hc & Hl & Hd & _ & Hch).
  match goal with |- context [gdf_empty L ?x] => set (sgdf := x) in * end.
  destruct (gdf_empty L sgdf).
  { cbn. repeat split; try assumption. intros layers H; inversion H; subst.
    exists g, (r :: sel). eauto 6. }
  destruct (gdf_geojson L sgdf) as [m|sg].
  { cbn. repeat split; try assumption. intros layers H; inversion H. }
  cbn. repeat split; try assumption. intros layers H; inversion H; subst.
  exists g, (r :: sel). split; [reflexivity|]. split; [reflexivity|].
  right. exists sg. split; [discriminate|reflexivity].
Qed.

(** What the map section does, whatever the inputs. *)
Lemma map_view_effect table o w :
  let run := map_view L table o w in
  log run.2 = log w /\ database run.2 = database w /\
  load_data_cache run.2 = load_data_cache w /\
  session_state run.2 = session_state w /\
  (charts L (screen run.2) = charts L (screen w) \/
   exists g sel c layers,
     session_state w !! "selected_rows" = Some sel /\
     charts L (screen run.2) = charts L (screen w) ++ [mkDeck layers c 15 tooltip] /\
     (layers = [base_layer g (base_alpha sel)] \/
      exists sg, sel <> [] /\ layers = [base_layer g 100; highlight_layer sg])).
Proof.
  intros run. subst run. rewrite map_view_run. cbv zeta.
  match goal with |- context [process_geometry L table o ?w0] =>
    destruct (process_geometry_effect L table o w0) as (Hs & Hc & Hl & Hd & _ & Hch);
    set (wp := (process_geometry L table o w0).2) in *
  end.
  assert (Hch' : charts L (screen wp) = charts L (screen w)).
  { rewrite Hch. cbn. unfold charts. rewrite omap_app. cbn. now rewrite app_nil_r. }
  cbn in Hs, Hc, Hl, Hd.
  match goal with |- context [gdf_empty L ?x] => set (gdf := x) in * end.
  destruct (gdf_empty L gdf).
  { cbn. repeat split; try assumption. left.
    unfold charts in *. rewrite omap_app. cbn. now rewrite app_nil_r. }
  destruct (gdf_centroid L gdf) as [m|c].
  { cbn. repeat split; try assumption. now left. }
  destruct (build_layers_effect table gdf o wp) as (Bl & Bd & Bc & Bs & Bch & Blay).
  destruct (build_layers L table gdf o wp) as [[layers|e] wl].
  2:{ cbn in *. repeat split; try congruence. left. congruence. }
  cbn in *. repeat split; try congruence.
  destruct (Blay layers eq_refl) as (g & sel & Hsel & _ & Hshape).
  right. exists g, sel, c, layers. split; [now rewrite <- Hs|]. split; [|exact Hshape].
  unfold charts in *. rewrite omap_app. cbn. congruence.
Qed.

(** What the script does once the table is loaded, whatever the inputs. *)
Lemma page_with_table_effect ev c table o w :
  let run := page_with_table L ev c table o w in
  log run.2 = log w /\ database run.2 = database w /\
  (charts L (screen run.2) = charts L (screen w) \/
   exists g cen layers,
     charts L (screen run.2) = charts L (screen w) ++ [mkDeck layers cen 15 tooltip] /\
     c = false /\
     (layers = [base_layer g (base_alpha (reported_rows ev))] \/
      exists sg, reported_rows ev <> [] /\ layers = [base_layer g 100; highlight_layer sg])).
Proof.
  intros run. subst run.
  destruct (df_empty table || negb (has_column "geometry" table)) eqn:Hcheck.
  { rewrite (page_with_table_hidden L ev c table o w Hcheck). cbn.
    repeat split; try reflexivity. left.
    unfold charts. rewrite omap_app. cbn. now rewrite app_nil_r. }
  destruct c.
  { rewrite (page_with_table_refresh L ev table o w Hcheck). cbn.
    repeat split; try reflexivity. left.
    unfold charts. rewrite omap_app. cbn. now rewrite app_nil_r. }
  rewrite (page_with_table_shown L ev table o w Hcheck).
  match goal with |- context [map_view L table o ?w1] => set (w0 := w1) end.
  destruct (map_view_effect table o w0) as (Hl & Hd & _ & _ & Hch).
  assert (Hw0 : charts L (screen w0) = charts L (screen w)).
  { assert (Hbase : forall (x : list (Element (Point L))),
              charts L (x ++ [StSubheader "Data Table"; StDataframe table;
                              StButton "Refresh data"]) = charts L x).
    { intros x. unfold charts. rewrite omap_app. cbn. now rewrite app_nil_r. }
    exact (Hbase (screen w)). }
  assert (Hsel0 : session_state w0 !! "selected_rows" = Some (reported_rows ev))
    by (subst w0; cbn; apply lookup_insert_eq).
  rewrite Hw0 in Hch.
  split; [exact Hl|]. split; [exact Hd|].
  destruct Hch as [Hch|(g & sel & cen & layers & Hsel & Hch & Hshape)].
  - left. exact Hch.
  - right. exists g, cen, layers.
    rewrite Hsel0 in Hsel. inversion Hsel; subst sel.
    split; [exact Hch|]. split; [reflexivity|exact Hshape].
Qed.

(** X18: a run of the map page script draws at most one chart, and none
    on a run caused by the Refresh button. The first layer of a chart is
    always the base layer, at alpha 255 exactly when the grid reports no
    rows and at alpha 100 otherwise; a second layer, if there is one, is a
    highlight layer and only appears when the grid reports rows; there is
    never a third. The script itself makes no outside call and leaves the
    database as it is. *)
Theorem a_run_draws_at_most_one_chart ev c table o w :
  let run := page_with_table L ev c table o w in
  log run.2 = log w /\ database run.2 = database w /\
  (charts L (screen run.2) = charts L (screen w) \/
   exists g cen layers,
     charts L (screen run.2) = charts L (screen w) ++ [mkDeck layers cen 15 tooltip] /\
     c = false /\
     (layers = [base_layer g (base_alpha (reported_rows ev))] \/
      exists sg, reported_rows ev <> [] /\ layers = [base_layer g 100; highlight_layer sg])).
Proof. exact (page_with_table_effect ev c table o w). Qed.

Lemma init_session_state_run o w :
  exists ss, init_session_state L o w = (Ok tt, set_session_state L ss w) /\
             is_Some (ss !! "selected_rows") /\
             (is_Some (session_state w !! "selected_rows") -> ss = session_state w).
Proof.
  unfold init_session_state, set_selected_rows. unfold_script.
  destruct (session_state w !! "selected_rows") as [rows|] eqn:Hs.
  - exists (session_state w). split; [f_equal; same_world|]. split; [rewrite Hs; eauto|auto].
  - eexists. split; [reflexivity|]. split; [rewrite lookup_insert_eq; eauto|].
    intros [x Hx]. discriminate.
Qed.

(** The map page up to the load of its table. *)
Lemma map_page_run ev c o w :
  exists ss,
    is_Some (ss !! "selected_rows") /\
    (is_Some (session_state w !! "selected_rows") -> ss = session_state w) /\
    page L ev c o w =
      match load_data L table_sql o
              (set_screen L (screen w ++ [StTitle "DataFrame and Map"])
                 (set_session_state L ss w)) with
      | (Ok table, w1) => page_with_table L ev c table o w1
      | (Raise e, w1) => (Raise e, w1)
      end.
Proof.
  destruct (init_session_state_run o w) as (ss & Hinit & Hsome & Hsame).
  exists ss. split; [exact Hsome|]. split; [exact Hsame|].
  unfold page. unfold_script. rewrite Hinit. cbv beta iota.
  match goal with |- context [load_data L table_sql o ?a] =>
    match goal with |- context [load_data L table_sql o ?b] =>
      tryif constr_eq a b then fail else
        (assert (Heq : a = b) by same_world; rewrite Heq)
    end
  end.
  destruct (load_data L table_sql o _) as [[table|e] w1]; reflexivity.
Qed.

(** X22: what the Refresh handler of the map page does. On a run caused
    by the button, with a table that passes the check and whatever the grid
    reports and whatever the caches hold, the page draws no chart and ends
    by requesting a rerun, leaving the query cache without any entry (those
    of the other pages too), the processed-geometry cache empty and the
    stored selection empty. The next run of the page, whatever its inputs,
    draws the title and then fetches the table anew: [load_data] is not
    answered from the cache, and with the engine at hand the query is sent
    to the database. *)
Theorem refresh_clears_caches_and_selection ev table o w :
  df_empty table || negb (has_column "geometry" table) = false ->
  let run := page_with_table L ev true table o w in
  run.1 = Raise RerunException /\
  load_data_cache run.2 = ∅ /\
  process_geometry_cache run.2 = [] /\
  session_state run.2 !! "selected_rows" = Some [] /\
  charts L (screen run.2) = charts L (screen w) /\
  database run.2 = database w /\
  (forall ev2 c2 o2,
     page L ev2 c2 o2 run.2 =
       (st_title L "DataFrame and Map";;
        table2 ← load_data_miss L table_sql;
        page_with_table L ev2 c2 table2) o2 run.2) /\
  (is_Some (engine_cache w) ->
   forall o2,
     let titled := (st_title L "DataFrame and Map" o2 run.2).2 in
     log (load_data L table_sql o2 titled).2 = log run.2 ++ [EvQuery table_sql]).
Proof.
  intros Hc run. subst run.
  rewrite (page_with_table_refresh L ev table o w Hc). cbn.
  split; [reflexivity|]. split; [reflexivity|]. split; [reflexivity|].
  split; [apply lookup_insert_eq|].
  split; [unfold charts; rewrite omap_app; cbn; now rewrite app_nil_r|].
  split; [reflexivity|].
  split.
  { intros ev2 c2 o2. unfold page, init_session_state. unfold_script. cbn.
    rewrite lookup_insert_eq. cbv beta iota.
    rewrite load_data_absent by (cbn; apply lookup_empty). reflexivity. }
  intros [e He] o2. cbn.
  rewrite load_data_absent by (cbn; apply lookup_empty).
  unfold load_data_miss. unfold_script.
  rewrite (load_data_body_engine_cached L o2 _ table_sql e) by exact He.
  destruct (query_fault o2); cbn; [reflexivity|].
  destruct (pd_read_sql L table_sql _); reflexivity.
Qed.

(** X19: while the query cache serves a table that is empty or has no
    geometry column, the map page stops right after the warning, before
    the grid and before the Refresh button: whatever the grid reports and
    even when the run was caused by a click on Refresh, the query cache and
    the processed-geometry cache are kept, no query is sent, and the page
    shows the title and the warning only. The same table is therefore
    served until its 600 seconds are over or another page clears the
    cache. *)
Theorem empty_table_keeps_the_page_stopped ev c o w table created :
  load_data_cache w !! table_sql = Some (table, created) ->
  now o < created + 600 ->
  df_empty table || negb (has_column "geometry" table) = true ->
  let run := page L ev c o w in
  run.1 = Raise StopException /\
  screen run.2 =
    screen w ++ [StTitle "DataFrame and Map";
                 StWarning "No data available or geometry column missing."] /\
  load_data_cache run.2 = load_data_cache w /\
  process_geometry_cache run.2 = process_geometry_cache w /\
  log run.2 = log w /\ database run.2 = database w.
Proof.
  intros Hc Hlt Hcheck run. subst run.
  destruct (map_page_run ev c o w) as (ss & _ & _ & Hpage). rewrite Hpage.
  assert (Hlt' : now o < created + ttl) by (unfold ttl; lia).
  rewrite (load_data_hit L o
             (set_screen L (screen w ++ [StTitle "DataFrame and Map"])
                (set_session_state L ss w)) table_sql table created Hc Hlt').
  rewrite (page_with_table_hidden L ev c table o _ Hcheck). cbn.
  rewrite <- app_assoc. repeat split; reflexivity.
Qed.

(** X20: when the database refuses the query of a page (the engine is at
    hand and the cache has no entry to serve), the page script ends in that
    very exception: nothing catches it. The page has drawn its title and
    nothing else, and the query cache stays without an entry, so the next
    run sends the query again. This holds for the table page, the editor
    page and the map page alike. *)
Theorem refused_query_ends_the_page o w e m :
  engine_cache w = Some e ->
  query_fault o = Some m ->
  load_data_cache w !! "select * from public.test" = None ->
  load_data_cache w !! table_sql = None ->
  (forall c,
     let run := SingleDataframe.page L c o w in
     run.1 = Raise (DatabaseError m) /\
     screen run.2 = screen w ++ [StTitle "Single DataFrame"] /\
     load_data_cache run.2 = load_data_cache w) /\
  (forall edit c,
     let run := Editor.page L edit c o w in
     run.1 = Raise (DatabaseError m) /\
     screen run.2 = screen w ++ [StTitle "Single Editor"] /\
     load_data_cache run.2 = load_data_cache w /\ database run.2 = database w) /\
  (forall ev c,
     let run := page L ev c o w in
     run.1 = Raise (DatabaseError m) /\
     screen run.2 = screen w ++ [StTitle "DataFrame and Map"] /\
     load_data_cache run.2 = load_data_cache w /\
     outcome_of run.1 = Crashed (DatabaseError m)).
Proof.
  intros He Hq Hc1 Hc2.
  assert (Hload : forall sql w0,
            engine_cache w0 = Some e -> load_data_cache w0 !! sql = None ->
            load_data L sql o w0 =
              (Raise (DatabaseError m), set_log L (log w0 ++ [EvQuery sql]) w0)).
  { intros sql w0 He0 Hc0. rewrite (load_data_absent L o w0 sql Hc0).
    unfold load_data_miss. unfold_script.
    rewrite (load_data_body_engine_cached L o w0 sql e He0), Hq. reflexivity. }
  split; [|split].
  - intros c run. subst run. unfold SingleDataframe.page. unfold_script.
    rewrite (Hload "select * from public.test"
               (set_screen L (screen w ++ [StTitle "Single DataFrame"]) w) He Hc1).
    cbn. auto.
  - intros edit c run. subst run. rewrite (editor_page_run L edit c o w).
    rewrite (Hload "select * from public.test"
               (set_screen L (screen w ++ [StTitle "Single Editor"]) w) He Hc1).
    cbn. auto.
  - intros ev c run. subst run.
    destruct (map_page_run ev c o w) as (ss & _ & _ & Hpage). rewrite Hpage.
    rewrite (Hload table_sql
               (set_screen L (screen w ++ [StTitle "DataFrame and Map"])
                  (set_session_state L ss w)) He Hc2).
    cbn. auto.
Qed.

(** X21: only the Save handler writes. Whatever their inputs and whatever
    the outside does, a run of the table page, a run of the map page, and a
    run of the editor page without a click on Save leave the database as it
    is, and every outside call they make is a read: the set-up of the
    engine, its test round trip, or a query. *)
Theorem pages_only_read o w :
  (forall c,
     let run := SingleDataframe.page L c o w in
     database run.2 = database w /\
     exists evs, log run.2 = log w ++ evs /\ forallb Coverage.is_read_event evs = true) /\
  (forall edit,
     let run := Editor.page L edit false o w in
     database run.2 = database w /\
     exists evs, log run.2 = log w ++ evs /\ forallb Coverage.is_read_event evs = true) /\
  (forall ev c,
     let run := page L ev c o w in
     database run.2 = database w /\
     exists evs, log run.2 = log w ++ evs /\ forallb Coverage.is_read_event evs = true).
Proof.
  split; [|split].
  - intros c run. subst run. unfold SingleDataframe.page, load_data_clear. unfold_script.
    destruct (load_data L _ o _) as [[table|x] w1] eqn:Hload;
      destruct (load_data_effect L o _ _ _ _ Hload) as (_ & Hdb & _ & _ & _ & Hlog);
      cbn in Hdb, Hlog; [destruct c|]; cbn; auto.
  - intros edit run. subst run. rewrite (editor_page_run L edit false o w).
    destruct (load_data L _ o _) as [[table|x] w1] eqn:Hload;
      destruct (load_data_effect L o _ _ _ _ Hload) as (_ & Hdb & _ & _ & _ & Hlog);
      cbn in Hdb, Hlog; cbn; auto.
  - intros ev c run. subst run.
    destruct (map_page_run ev c o w) as (ss & _ & _ & Hpage). rewrite Hpage.
    destruct (load_data L _ o _) as [[table|x] w1] eqn:Hload;
      destruct (load_data_effect L o _ _ _ _ Hload) as (_ & Hdb & _ & _ & _ & Hlog);
      cbn in Hdb, Hlog; [|cbn; auto].
    destruct (page_with_table_effect ev c table o w1) as (Hl & Hd & _).
    rewrite Hl, Hd. auto.
Qed.

End MorePageFacts.

(** ** The further properties on concrete runs *)

Lemma first_engine_is_built_and_kept_witness :
  let run := get_database_engine RefLib.lib (RefLib.calm 0) RefLib.fresh in
  run.1 = Ok RefLib.engine0 /\
  engine_cache run.2 = Some RefLib.engine0 /\
  log run.2 = log RefLib.fresh ++
    [EvUrlCreate "portal" "localhost" 5432 "hmlr"; EvCreateEngine; EvConnect;
     EvExecute "SELECT 1"].
Proof.
  exact (first_engine_is_built_and_kept RefLib.lib (RefLib.calm 0) RefLib.fresh
           "portal" "secret" "localhost" "hmlr" 5432
           eq_refl eq_refl eq_refl eq_refl eq_refl eq_refl eq_refl).
Defined.

Lemma engine_failures_are_connection_errors_witness :
  get_database_engine RefLib.lib (RefLib.calm 0) RefRuns.bad_port =
    (Raise (ConnectionError ("Failed to create database engine: " +:+
                             "invalid literal for int() with base 10")),
     RefRuns.bad_port) /\
  (let run := get_database_engine RefLib.lib RefRuns.db_down RefLib.fresh in
   run.1 = Raise (ConnectionError ("Failed to create database engine: " +:+
                                   "connection refused")) /\
   log run.2 = log RefLib.fresh ++
     [EvUrlCreate "portal" "localhost" 5432 "hmlr"; EvCreateEngine; EvConnect] /\
   engine_cache run.2 = None).
Proof.
  split.
  - apply (engine_failures_are_connection_errors RefLib.lib (RefLib.calm 0) RefRuns.bad_port
             "portal" "secret" "localhost" "hmlr" eq_refl eq_refl eq_refl eq_refl eq_refl).
    reflexivity.
  - apply (engine_failures_are_connection_errors RefLib.lib RefRuns.db_down RefLib.fresh
             "portal" "secret" "localhost" "hmlr" eq_refl eq_refl eq_refl eq_refl eq_refl
             ).
    + reflexivity.
    + reflexivity.
Defined.

Lemma engine_raises_only_documented_errors_witness :
  (exists k, EnvironmentError "Missing required environment variable: 'DB_HOST'"
             = EnvironmentError ("Missing required environment variable: '" +:+ k +:+ "'")) \/
  (exists m, EnvironmentError "Missing required environment variable: 'DB_HOST'"
             = ConnectionError ("Failed to create database engine: " +:+ m)).
Proof.
  apply (engine_raises_only_documented_errors RefLib.lib (RefLib.calm 0) RefLib.no_host
           _ RefLib.no_host).
  left. vm_compute. reflexivity.
Defined.

Lemma engine_is_made_once_witness :
  get_database_engine RefLib.lib RefRuns.db_down
    (Coverage.set_environ RefLib.lib ∅
       (get_database_engine RefLib.lib (RefLib.calm 0) RefLib.fresh).2) =
  (Ok RefLib.engine0,
   Coverage.set_environ RefLib.lib ∅
     (get_database_engine RefLib.lib (RefLib.calm 0) RefLib.fresh).2).
Proof.
  apply (engine_is_made_once RefLib.lib (RefLib.calm 0) RefLib.fresh RefLib.engine0).
  vm_compute. reflexivity.
Defined.

Lemma failed_query_is_not_cached_witness :
  let run := load_data RefLib.lib RefLib.test_sql RefRuns.query_refused RefLib.warm in
  load_data_cache run.2 = load_data_cache RefLib.warm.
Proof.
  intros run.
  apply (failed_query_is_not_cached RefLib.lib RefRuns.query_refused RefLib.warm
           RefLib.test_sql (DatabaseError "relation does not exist") run.2).
  vm_compute. reflexivity.
Defined.

Lemma query_touches_only_its_own_entry_witness :
  let run := load_data RefLib.lib RefLib.test_sql (RefLib.calm 700) RefRuns.cached_empty in
  load_data_cache run.2 !! MapPage.table_sql = Some (RefRuns.empty_table, 0) /\
  database run.2 = database RefRuns.cached_empty.
Proof.
  intros run.
  destruct (query_touches_only_its_own_entry RefLib.lib (RefLib.calm 700) RefRuns.cached_empty
              RefLib.test_sql run.1 run.2) as (Hother & Hdb & _).
  - subst run. now destruct (load_data _ _ _ _).
  - split; [|exact Hdb]. rewrite Hother; [reflexivity|]. vm_compute. discriminate.
Defined.

Lemma expired_entry_is_refetched_witness :
  let run := load_data RefLib.lib RefLib.test_sql (RefLib.calm 600) RefRuns.cached_before_cy in
  run.1 = Ok (RefLib.frame_of_rows RefRuns.people_with_cy) /\
  load_data_cache run.2 =
    <[RefLib.test_sql := (RefLib.frame_of_rows RefRuns.people_with_cy, 600)]>
      (load_data_cache RefRuns.cached_before_cy) /\
  log run.2 = log RefRuns.cached_before_cy ++ [EvQuery RefLib.test_sql].
Proof.
  apply (expired_entry_is_refetched RefLib.lib (RefLib.calm 600) RefRuns.cached_before_cy
           RefLib.test_sql RefLib.people_table 0 RefLib.engine0);
    first [reflexivity | vm_compute; discriminate].
Defined.

Lemma table_page_refresh_clears_every_entry_witness :
  let clicked := SingleDataframe.page RefLib.lib true (RefLib.calm 700) RefRuns.cached_empty in
  clicked.1 = Raise RerunException /\ load_data_cache clicked.2 = ∅.
Proof.
  intros clicked.
  destruct (table_page_refresh_clears_every_entry RefLib.lib (RefLib.calm 700)
              RefRuns.cached_empty RefLib.people_table
              (load_data RefLib.lib "select * from public.test" (RefLib.calm 700)
                 (set_screen RefLib.lib (screen RefRuns.cached_empty ++
                                         [StTitle "Single DataFrame"]) RefRuns.cached_empty)).2)
    as (H1 & H2 & _).
  - vm_compute. reflexivity.
  - split; assumption.
Defined.

Lemma editor_saves_the_cached_grid_witness :
  let run := Editor.page RefLib.lib id true (RefLib.calm 10) RefRuns.cached_before_cy in
  public_test (database RefRuns.cached_before_cy) = RefRuns.people_with_cy /\
  run.1 = Raise RerunException /\
  public_test (database run.2) = RefLib.people.
Proof.
  intros run.
  destruct (editor_saves_the_cached_grid RefLib.lib id (RefLib.calm 10)
              RefRuns.cached_before_cy RefLib.people_table 0 RefLib.engine0)
    as (H1 & H2 & _); try reflexivity.
  repeat split; assumption.
Defined.

Lemma saved_rows_are_read_back_witness :
  let saved := (Editor.save_changes RefLib.lib RefLib.people_edited (RefLib.calm 0)
                  RefLib.warm).2 in
  let run := Editor.page RefLib.lib id false (RefLib.calm 1) saved in
  public_test (database saved) = iterrows RefLib.people_edited /\
  run.1 = Ok tt /\
  screen run.2 = screen saved ++
    [StTitle "Single Editor"; StDataEditor RefLib.people_edited; StButton "Save changes"].
Proof.
  intros saved run.
  destruct (saved_rows_are_read_back RefLib.lib RefLib.people_edited (RefLib.calm 0)
              RefLib.warm saved id (RefLib.calm 1) RefLib.people_edited)
    as (H1 & H2 & _ & H4 & _).
  - vm_compute. reflexivity.
  - reflexivity.
  - reflexivity.
  - repeat split; assumption.
Defined.

Lemma missing_geometry_column_is_a_key_error_witness :
  MapPage.flatten RefRuns.no_geometry_column = Raise (KeyError "geometry") /\
  MapPage.process_geometry_body RefLib.lib RefRuns.no_geometry_column (RefLib.calm 0) RefLib.warm =
    (Ok [],
     set_screen RefLib.lib
       (screen RefLib.warm ++ [StError "Error processing geometry: 'geometry'"]) RefLib.warm) /\
  MapPage.flatten (mkDataFrame ["id"] []) = Ok ([], []).
Proof.
  exact (missing_geometry_column_is_a_key_error RefLib.lib ["id"] [PInt 1] []
           (RefLib.calm 0) RefLib.warm eq_refl).
Defined.

Lemma one_bad_collection_spoils_the_table_witness :
  exists e,
    MapPage.flatten RefRuns.parcels_spoiled = Raise e /\
    MapPage.process_geometry_body RefLib.lib RefRuns.parcels_spoiled (RefLib.calm 0) RefLib.warm =
      (Ok [],
       set_screen RefLib.lib
         (screen RefLib.warm ++ [StError ("Error processing geometry: " +:+ exn_str e)])
         RefLib.warm).
Proof.
  apply (one_bad_collection_spoils_the_table RefLib.lib RefRuns.parcels_spoiled
           [("id", PInt 2); ("geometry", PDict RefRuns.null_features)]
           RefRuns.null_features (TypeError "object is not iterable")).
  - cbn. right. left.
  - reflexivity.
  - discriminate.
  - reflexivity.
Defined.

Lemma flatten_reads_only_collections_witness :
  MapPage.flatten RefLib.parcels_encoded =
    MapPage.flatten_rows ([], [])
      (filter (Coverage.holds_collection) (iterrows RefLib.parcels_encoded)).
Proof.
  apply (flatten_reads_only_collections RefLib.parcels_encoded).
  cbn. repeat constructor; eexists; reflexivity.
Defined.

Lemma selection_flattens_to_features_of_the_table_witness :
  exists fs' rds',
    MapPage.flatten RefRuns.first_parcel = Ok (fs', rds') /\
    fs' ⊆ [RefLib.feature "a"; RefLib.feature "b"] /\
    rds' ⊆ [[("id", PInt 1)]; [("id", PInt 1)]].
Proof.
  apply (selection_flattens_to_features_of_the_table RefLib.parcels_table [0%nat]
           RefRuns.first_parcel); reflexivity.
Defined.

Lemma iloc_is_bounds_checked_witness :
  (exists st, iloc RefLib.parcels_table [1%nat; 0%nat] = Ok st /\
              columns st = columns RefLib.parcels_table /\
              length (values st) = 2%nat /\
              Forall2 (fun i r => values RefLib.parcels_table !! i = Some r)
                      [1%nat; 0%nat] (values st)) /\
  iloc RefLib.parcels_table [0%nat; 2%nat] =
    Raise (IndexError "positional indexers are out-of-bounds").
Proof.
  split.
  - apply (iloc_is_bounds_checked RefLib.lib RefLib.parcels_table [1%nat; 0%nat]).
    repeat constructor.
  - apply (iloc_is_bounds_checked RefLib.lib RefLib.parcels_table [0%nat; 2%nat]).
    apply Exists_cons_tl, Exists_cons_hd. cbn. lia.
Defined.

Lemma refresh_clears_caches_and_selection_witness :
  let run := MapPage.page_with_table RefLib.lib RefLib.first_row true RefLib.parcels_table
               (RefLib.calm 5) RefRuns.in_use in
  (load_data_cache RefRuns.in_use !! RefLib.test_sql = Some (RefLib.people_table, 0) /\
   load_data_cache RefRuns.in_use !! MapPage.table_sql = Some (RefLib.parcels_table, 0) /\
   process_geometry_cache RefRuns.in_use = [RefLib.parcels_table] /\
   session_state RefRuns.in_use !! "selected_rows" = Some [0%nat]) /\
  run.1 = Raise RerunException /\
  load_data_cache run.2 = ∅ /\
  process_geometry_cache run.2 = [] /\
  session_state run.2 !! "selected_rows" = Some [] /\
  log (load_data RefLib.lib MapPage.table_sql (RefLib.calm 6)
         (st_title RefLib.lib "DataFrame and Map" (RefLib.calm 6) run.2).2).2
    = log run.2 ++ [EvQuery MapPage.table_sql].
Proof.
  intros run.
  destruct (refresh_clears_caches_and_selection RefLib.lib RefLib.first_row
              RefLib.parcels_table (RefLib.calm 5) RefRuns.in_use eq_refl)
    as (H1 & H2 & H3 & H4 & _ & _ & _ & H8).
  split; [repeat split; reflexivity|].
  split; [exact H1|]. split; [exact H2|]. split; [exact H3|]. split; [exact H4|].
  apply (H8 (ex_intro _ RefLib.engine0 eq_refl) (RefLib.calm 6)).
Defined.

Lemma empty_table_keeps_the_page_stopped_witness :
  let run := MapPage.page RefLib.lib RefLib.first_row true (RefLib.calm 5) RefRuns.cached_empty in
  run.1 = Raise StopException /\
  load_data_cache run.2 = load_data_cache RefRuns.cached_empty /\
  log run.2 = [].
Proof.
  intros run.
  destruct (empty_table_keeps_the_page_stopped RefLib.lib RefLib.first_row true
              (RefLib.calm 5) RefRuns.cached_empty RefRuns.empty_table 0)
    as (H1 & _ & H3 & _ & H5 & _); try reflexivity.
  repeat split; assumption.
Defined.

Lemma refused_query_ends_the_page_witness :
  let run := MapPage.page RefLib.lib RefLib.no_rows false RefRuns.query_refused RefLib.warm in
  run.1 = Raise (DatabaseError "relation does not exist") /\
  screen run.2 = screen RefLib.warm ++ [StTitle "DataFrame and Map"] /\
  load_data_cache run.2 = load_data_cache RefLib.warm /\
  outcome_of run.1 = Crashed (DatabaseError "relation does not exist").
Proof.
  destruct (refused_query_ends_the_page RefLib.lib RefRuns.query_refused RefLib.warm
              RefLib.engine0 "relation does not exist") as (_ & _ & Hmap);
    try reflexivity.
  apply Hmap.
Defined.
